(** * Ghost: the labs feature-flag module and the e2e start-up utilities

    A shallow embedding of [core/shared/labs.js] and [test/utils/e2e-utils.js]
    and the properties of them that the specification states. *)

From Stdlib Require Import ZArith String Ascii List Bool.
From stdpp Require Import gmap strings list fin_maps pretty.

Set Warnings "-register-all".

Local Open Scope string_scope.
Local Open Scope list_scope.

(** * JavaScript values *)

(** The values a setting, a config entry or an object property can hold.
    Settings are JSON documents, so nested arrays and objects are trees.
    Numbers are integers: of a number only its being zero or not is ever
    looked at. *)
Inductive JsVal : Type :=
| JUndefined
| JNull
| JBool (b : bool)
| JNum (n : Z)
| JStr (s : string)
| JArr (items : list JsVal)
| JObj (members : list (string * JsVal)).

(** A (top-level) JavaScript object: its own enumerable properties. *)
Abbreviation JsObject := (gmap string JsVal).

(** ToBoolean: what [if (v)], [v && ...], [v || ...] and [!v] test. *)
Definition truthy (v : JsVal) : bool :=
  match v with
  | JUndefined | JNull => false
  | JBool b => b
  | JNum n => negb (n =? 0)%Z
  | JStr s => negb (String.eqb s "")
  | JArr _ | JObj _ => true
  end.

(** [v === true] *)
Definition strict_eq_true (v : JsVal) : bool :=
  match v with
  | JBool true => true
  | _ => false
  end.

(** [v !== s] for a string literal [s] *)
Definition strict_neq_str (v : JsVal) (s : string) : bool :=
  match v with
  | JStr s' => negb (String.eqb s' s)
  | _ => true
  end.

Definition is_boolean (v : JsVal) : bool :=
  match v with
  | JBool _ => true
  | _ => false
  end.

(** [_.cloneDeep] on a JSON tree: every array and object is rebuilt. *)
Fixpoint cloneDeepVal (v : JsVal) : JsVal :=
  match v with
  | JArr items => JArr (List.map cloneDeepVal items)
  | JObj members => JObj (List.map (fun kv => (fst kv, cloneDeepVal (snd kv))) members)
  | _ => v
  end.

(** [s.startsWith(p)] *)
Definition startsWith (s p : string) : bool := String.prefix p s.

Module Labs.

(** ** Constants of labs.js *)

Definition GA_FEATURES : list string :=
  [ "customThemeSettings" ].

Definition BETA_FEATURES : list string :=
  [ "activitypub"; "multipleProducts" ].

Definition ALPHA_FEATURES : list string :=
  [ "oauthLogin"; "membersActivity"; "cardSettingsPanel"; "urlCache";
    "mediaAPI"; "filesAPI"; "membersAutoLogin"; "buttonCard"; "calloutCard";
    "nftCard"; "accordionCard"; "gifsCard"; "fileCard"; "audioCard";
    "videoCard"; "productCard" ].

Definition GA_KEYS : list string := GA_FEATURES.
Definition WRITABLE_KEYS_ALLOWLIST : list string := BETA_FEATURES ++ ALPHA_FEATURES.

Record Messages := {
  msg_errorMessage : string;
  msg_errorContext : string;
  msg_errorHelp : string
}.

Definition messages : Messages := {|
  msg_errorMessage := "The \{\{{helperName}\}\} helper is not available.";
  msg_errorContext := "The {flagName} flag must be enabled in labs if you wish to use the \{\{{helperName}\}\} helper.";
  msg_errorHelp := "See {url}"
|}.

(** ** Values, errors and the store

    Objects have identity.  The object the settings cache holds under
    ['labs'] is one of them; all others live in the heap: the ones this
    module allocates (the result of [_.cloneDeep], or the literal [{}]) and
    the ones its callers hold, such as the response of a request. *)

Inductive Ref : Type :=
| CachedLabs
| Allocated (l : positive).

(** The values that are not objects. *)
Inductive Primitive : Type :=
| PUndefined
| PNull
| PBool (b : bool)
| PNum (n : Z)
| PStr (s : string).

Definition prim_val (p : Primitive) : JsVal :=
  match p with
  | PUndefined => JUndefined
  | PNull => JNull
  | PBool b => JBool b
  | PNum n => JNum n
  | PStr s => JStr s
  end.

(** What a variable such as [labs] holds: a primitive, or a reference to an
    object. *)
Inductive Value : Type :=
| Prim (p : Primitive)
| Obj (r : Ref).

(** What the settings cache holds under ['labs']: an object, or anything
    else ([undefined] when the setting is missing). *)
Inductive Cached : Type :=
| CachedPrimitive (p : Primitive)
| CachedObject (o : JsObject).

(** What a call can throw. *)
Inductive JsError : Type :=
| TypeError
| ReferenceError (name : string)
| OtherError (what : string).

(** A call returns a value or throws. *)
Inductive Outcome (A : Type) : Type :=
| Returned (a : A)
| Threw (e : JsError).
Arguments Returned {A} a.
Arguments Threw {A} e.

Record ErrDetails := {
  message : string;
  context : string;
  help : string
}.

Inductive GhostError : Type :=
| DisabledFeatureError (d : ErrDetails)
| NotFoundError.

Record World := {
  labsSetting : Cached;                   (* settingsCache: 'labs' *)
  membersSignupAccess : JsVal;            (* settingsCache: 'members_signup_access' *)
  enableDeveloperExperiments : JsVal;     (* config: 'enableDeveloperExperiments' *)
  NODE_ENV : option string;               (* process.env.NODE_ENV, if set *)
  heap : gmap positive JsObject;          (* every other object *)
  errorLog : list GhostError              (* what logging.error received *)
}.

Definition set_labsSetting (f : Cached -> Cached) (w : World) : World :=
  {| labsSetting := f (labsSetting w);
     membersSignupAccess := membersSignupAccess w;
     enableDeveloperExperiments := enableDeveloperExperiments w;
     NODE_ENV := NODE_ENV w;
     heap := heap w;
     errorLog := errorLog w |}.

Definition set_heap (f : gmap positive JsObject -> gmap positive JsObject) (w : World) : World :=
  {| labsSetting := labsSetting w;
     membersSignupAccess := membersSignupAccess w;
     enableDeveloperExperiments := enableDeveloperExperiments w;
     NODE_ENV := NODE_ENV w;
     heap := f (heap w);
     errorLog := errorLog w |}.

Definition set_errorLog (f : list GhostError -> list GhostError) (w : World) : World :=
  {| labsSetting := labsSetting w;
     membersSignupAccess := membersSignupAccess w;
     enableDeveloperExperiments := enableDeveloperExperiments w;
     NODE_ENV := NODE_ENV w;
     heap := heap w;
     errorLog := f (errorLog w) |}.

(** The properties of the object a reference denotes.  When the cache does
    not hold an object, [CachedLabs] denotes nothing and has no
    properties. *)
Definition objAt (r : Ref) (w : World) : JsObject :=
  match r with
  | CachedLabs =>
      match labsSetting w with
      | CachedObject o => o
      | CachedPrimitive _ => ∅
      end
  | Allocated l => default ∅ (heap w !! l)
  end.

Definition updObj (r : Ref) (f : JsObject -> JsObject) (w : World) : World :=
  match r with
  | CachedLabs =>
      set_labsSetting (fun c => match c with
                                | CachedObject o => CachedObject (f o)
                                | CachedPrimitive p => CachedPrimitive p
                                end) w
  | Allocated l => set_heap (alter f l) w
  end.

(** [o[k]], [o[k] = v] and [delete o[k]] on an object *)
Definition getProp (r : Ref) (k : string) (w : World) : JsVal :=
  default JUndefined (objAt r w !! k).

Definition setProp (r : Ref) (k : string) (v : JsVal) (w : World) : World :=
  updObj r (insert k v) w.

Definition deleteProp (r : Ref) (k : string) (w : World) : World :=
  updObj r (delete k) w.

(** The index a property name denotes, if it is the decimal numeral of
    one: ['0'], ['1'], ['17'], but not ['01']. *)
Definition digit (c : ascii) : option nat :=
  let n := nat_of_ascii c in
  if (48 <=? n)%nat && (n <=? 57)%nat then Some (n - 48)%nat else None.

Fixpoint digits (s : string) (acc : nat) : option nat :=
  match s with
  | EmptyString => Some acc
  | String c rest =>
      match digit c with
      | Some d => digits rest (10 * acc + d)%nat
      | None => None
      end
  end.

Definition array_index (k : string) : option nat :=
  match k with
  | EmptyString => None
  | String c rest =>
      if Ascii.eqb c "0" && negb (String.eqb rest "") then None else digits k 0
  end.

(** [p[k]] on a primitive.  A string has its length and its characters as
    properties of its own.  The members a primitive inherits from its
    prototype are methods and are left out: none is named by a feature
    key, and none is the boolean [true]. *)
Definition primProp (p : Primitive) (k : string) : JsVal :=
  match p with
  | PStr s =>
      if String.eqb k "length" then JNum (Z.of_nat (String.length s))
      else
        match array_index k with
        | Some i =>
            match String.get i s with
            | Some c => JStr (String c EmptyString)
            | None => JUndefined
            end
        | None => JUndefined
        end
  | _ => JUndefined
  end.

(** [x[k]], [x[k] = v] and [delete x[k]] on any value.  The module is not in
    strict mode: assigning to a property of a primitive, or deleting one,
    does nothing. *)
Definition getV (x : Value) (k : string) (w : World) : JsVal :=
  match x with
  | Obj r => getProp r k w
  | Prim p => primProp p k
  end.

Definition setV (x : Value) (k : string) (v : JsVal) (w : World) : World :=
  match x with
  | Obj r => setProp r k v w
  | Prim _ => w
  end.

Definition deleteV (x : Value) (k : string) (w : World) : World :=
  match x with
  | Obj r => deleteProp r k w
  | Prim _ => w
  end.

Definition truthyV (x : Value) : bool :=
  match x with
  | Obj _ => true
  | Prim p => truthy (prim_val p)
  end.

(** A new object with the given properties. *)
Definition alloc (o : JsObject) (w : World) : Ref * World :=
  let l := fresh (dom (heap w)) in
  (Allocated l, set_heap (insert l o) w).

(** [settingsCache.get('labs')]: a reference to the cached object, or the
    primitive the cache holds. *)
Definition settingsCache_get_labs (w : World) : Value :=
  match labsSetting w with
  | CachedObject _ => Obj CachedLabs
  | CachedPrimitive p => Prim p
  end.

(** [_.cloneDeep(x)]: a new object with cloned properties; a primitive is
    its own clone. *)
Definition cloneDeep (x : Value) (w : World) : Value * World :=
  match x with
  | Obj r => let '(r', w) := alloc (cloneDeepVal <$> objAt r w) w in (Obj r', w)
  | Prim p => (Prim p, w)
  end.

(** [list.forEach(body)]: stops at the first round that throws. *)
Fixpoint forEach {A : Type} (l : list A)
    (body : A -> World -> Outcome unit * World) (w : World) : Outcome unit * World :=
  match l with
  | [] => (Returned tt, w)
  | x :: l' =>
      match body x w with
      | (Returned _, w) => forEach l' body w
      | (Threw e, w) => (Threw e, w)
      end
  end.

(** ** getAll *)

(** [config.get('enableDeveloperExperiments') || process.env.NODE_ENV.startsWith('test')],
    as a condition.  The right operand is evaluated only when the left one
    is falsy; calling [startsWith] on an unset NODE_ENV throws. *)
Definition developerExperimentsOrTest (w : World) : Outcome bool :=
  if truthy (enableDeveloperExperiments w) then Returned true
  else
    match NODE_ENV w with
    | Some env => Returned (startsWith env "test")
    | None => Threw TypeError
    end.

Definition getAll (w : World) : Outcome Value * World :=
  let '(cloned, w) := cloneDeep (settingsCache_get_labs w) w in
  let '(labs, w) :=
    if truthyV cloned then (cloned, w)
    else let '(r, w) := alloc ∅ w in (Obj r, w) in
  match
    forEach ALPHA_FEATURES
      (fun alphaKey w =>
         if truthy (getV labs alphaKey w) then
           match developerExperimentsOrTest w with
           | Returned true => (Returned tt, w)
           | Returned false => (Returned tt, deleteV labs alphaKey w)
           | Threw e => (Threw e, w)
           end
         else (Returned tt, w))
      w
  with
  | (Threw e, w) => (Threw e, w)
  | (Returned _, w) =>
      let w :=
        foldl (fun w gaKey => setV labs gaKey (JBool true) w) w GA_FEATURES in
      let w :=
        setV labs "members"
             (JBool (strict_neq_str (membersSignupAccess w) "none")) w in
      (Returned labs, w)
  end.

(** ** isSet *)

Definition isSet (flag : string) (w : World) : Outcome bool * World :=
  match getAll w with
  | (Threw e, w) => (Threw e, w)
  | (Returned labsConfig, w) =>
      (Returned (truthyV labsConfig
                 && truthy (getV labsConfig flag w)
                 && strict_eq_true (getV labsConfig flag w)), w)
  end.

(** ** enabledHelper *)

Record HelperOptions := {
  flagKey : string;
  flagName : string;
  helperName : string;
  errorMessage : option string;
  errorContext : option string;
  errorHelp : option string;
  helpUrl : option string;
  async : JsVal
}.

Inductive SafeString : Type := mkSafeString (s : string).

(** What a helper hands back to the template engine: whatever its callback
    returned, an error string, or a resolved promise of an error string. *)
Inductive HelperResult (A : Type) : Type :=
| CallbackValue (a : A)
| ErrorString (s : SafeString)
| PromiseResolved (s : SafeString).
Arguments CallbackValue {A} a.
Arguments ErrorString {A} s.
Arguments PromiseResolved {A} s.

(** [a || b] where [a] is an optional string: the empty string is falsy. *)
Definition or_string (a : option string) (b : string) : string :=
  match a with
  | Some s => if String.eqb s "" then b else s
  | None => b
  end.

Definition opt_val (a : option string) : JsVal :=
  match a with
  | Some s => JStr s
  | None => JUndefined
  end.

Definition dquote : string := String (ascii_of_nat 34) EmptyString.

(** [_.values(errDetails)] in insertion order *)
Definition values (d : ErrDetails) : list string :=
  [message d; context d; help d].

Section Helpers.

(** [@tryghost/tpl]: fills the placeholders of a template from the data, and
    throws when the template names a placeholder the data does not have. *)
Variable tpl : string -> list (string * JsVal) -> Outcome string.

Definition enabledHelper {A : Type} (options : HelperOptions)
    (callback : World -> A * World) (w : World) : Outcome (HelperResult A) * World :=
  match isSet (flagKey options) w with
  | (Threw e, w) => (Threw e, w)
  | (Returned true, w) =>
      let '(a, w) := callback w in (Returned (CallbackValue a), w)
  | (Returned false, w) =>
      match tpl (or_string (errorMessage options) (msg_errorMessage messages))
                [("helperName", JStr (helperName options))] with
      | Threw e => (Threw e, w)
      | Returned message =>
      match tpl (or_string (errorContext options) (msg_errorContext messages))
                [("helperName", JStr (helperName options));
                 ("flagName", JStr (flagName options))] with
      | Threw e => (Threw e, w)
      | Returned context =>
      match tpl (or_string (errorHelp options) (msg_errorHelp messages))
                [("url", opt_val (helpUrl options))] with
      | Threw e => (Threw e, w)
      | Returned help =>
          let errDetails := {| message := message; context := context; help := help |} in
          let w := set_errorLog (fun log => log ++ [DisabledFeatureError errDetails]) w in
          let errString :=
            mkSafeString ("<script>console.error(" +:+ dquote
                          +:+ String.concat " " (values errDetails)
                          +:+ dquote +:+ ");</script>") in
          if truthy (async options)
          then (Returned (PromiseResolved errString), w)
          else (Returned (ErrorString errString), w)
      end end end
  end.

End Helpers.

(** ** enabledMiddleware *)

Definition enabledMiddleware {A : Type} (flag : string) (req res : Ref)
    (next : option GhostError -> World -> A * World) (w : World) : Outcome A * World :=
  match isSet flag w with
  | (Threw e, w) => (Threw e, w)
  | (Returned true, w) => let '(a, w) := next None w in (Returned a, w)
  | (Returned false, w) => let '(a, w) := next (Some NotFoundError) w in (Returned a, w)
  end.

(** ** Notions used to state and prove the properties *)

(** The world in which location [l] holds the object [o]. *)
Definition put (l : positive) (o : JsObject) (w : World) : World :=
  set_heap (insert l o) w.

(** NODE_ENV starts with 'test'; an unset NODE_ENV does not. *)
Definition in_test (env : option string) : bool :=
  match env with
  | Some env => startsWith env "test"
  | None => false
  end.

(** Developer experiments are on: the config entry is truthy, or NODE_ENV
    starts with 'test'. *)
Definition developerExperiments (w : World) : bool :=
  truthy (enableDeveloperExperiments w) || in_test (NODE_ENV w).

(** The cache holds a truthy primitive. *)
Definition truthy_primitive (w : World) : option Primitive :=
  match labsSetting w with
  | CachedPrimitive p => if truthy (prim_val p) then Some p else None
  | CachedObject _ => None
  end.

(** [getAll] gets as far as reading NODE_ENV: the cached object stores a
    truthy value under some alpha key and the config entry is falsy. *)
Definition reads_NODE_ENV (w : World) : bool :=
  existsb (fun alphaKey => truthy (getProp CachedLabs alphaKey w)) ALPHA_FEATURES
  && negb (truthy (enableDeveloperExperiments w)).

Definition unset (env : option string) : bool :=
  match env with
  | Some _ => false
  | None => true
  end.

(** [getAll] from the loop over the alpha keys on, for a given [labs]. *)
Definition getAll_loops (labs : Value) (w : World) : Outcome Value * World :=
  match
    forEach ALPHA_FEATURES
      (fun alphaKey w =>
         if truthy (getV labs alphaKey w) then
           match developerExperimentsOrTest w with
           | Returned true => (Returned tt, w)
           | Returned false => (Returned tt, deleteV labs alphaKey w)
           | Threw e => (Threw e, w)
           end
         else (Returned tt, w))
      w
  with
  | (Threw e, w) => (Threw e, w)
  | (Returned _, w) =>
      let w :=
        foldl (fun w gaKey => setV labs gaKey (JBool true) w) w GA_FEATURES in
      let w :=
        setV labs "members"
             (JBool (strict_neq_str (membersSignupAccess w) "none")) w in
      (Returned labs, w)
  end.

(** One round of the loop over [ALPHA_FEATURES], on the properties. *)
Definition alphaStep (dev : bool) (o : JsObject) (alphaKey : string) : JsObject :=
  if truthy (default JUndefined (o !! alphaKey)) && negb dev
  then delete alphaKey o
  else o.

Definition gaStep (o : JsObject) (gaKey : string) : JsObject :=
  <[gaKey := JBool true]> o.

(** The properties of the object [getAll] returns, when it returns one. *)
Definition labsObject (w : World) : JsObject :=
  <["members" := JBool (strict_neq_str (membersSignupAccess w) "none")]>
    (foldl gaStep
       (foldl (alphaStep (developerExperiments w))
              (objAt CachedLabs w) ALPHA_FEATURES)
       GA_FEATURES).

(** The stored value of a key survives the alpha loop unless the key is an
    alpha key with a truthy value and developer experiments are off. *)
Definition hidden (w : World) (k : string) : bool :=
  bool_decide (k ∈ ALPHA_FEATURES)
  && truthy (getProp CachedLabs k w)
  && negb (developerExperiments w).

(** A reference denotes an object that exists in the world. *)
Definition live (r : Ref) (w : World) : Prop :=
  match r with
  | CachedLabs => True
  | Allocated l => l ∈ dom (heap w)
  end.

(** ** Sample worlds *)


Definition w_alpha (dev : JsVal) (env : option string) : World := {|
  labsSetting := CachedObject {[ "oauthLogin" := JBool true ]};
  membersSignupAccess := JStr "all";
  enableDeveloperExperiments := dev;
  NODE_ENV := env;
  heap := ∅;
  errorLog := []
|}.

Definition w_string_flag : World := {|
  labsSetting := CachedObject {[ "activitypub" := JStr "yes" ]};
  membersSignupAccess := JStr "all";
  enableDeveloperExperiments := JBool false;
  NODE_ENV := Some "production";
  heap := ∅;
  errorLog := []
|}.

Definition w_ga_off : World := {|
  labsSetting := CachedObject {[ "customThemeSettings" := JBool false ]};
  membersSignupAccess := JStr "none";
  enableDeveloperExperiments := JBool false;
  NODE_ENV := Some "production";
  heap := ∅;
  errorLog := []
|}.

(** The cache holds the string 'abc' under ['labs']. *)
Definition w_primitive : World := {|
  labsSetting := CachedPrimitive (PStr "abc");
  membersSignupAccess := JStr "all";
  enableDeveloperExperiments := JBool false;
  NODE_ENV := Some "production";
  heap := ∅;
  errorLog := []
|}.

(** A template filler that returns the template as it is. *)
Definition plain_tpl (template : string) (data : list (string * JsVal)) : Outcome string :=
  Returned template.

(** A template filler for templates whose placeholders are plain names:
    [{name}] is replaced by the text of the entry the data has for [name],
    [\{] and [\}] stand for the braces themselves, and a name the data does
    not have makes it throw. *)
Definition text_of (v : JsVal) : string :=
  match v with
  | JStr s => s
  | JBool true => "true"
  | JBool false => "false"
  | JNum n => pretty n
  | JUndefined | JNull => ""
  | JArr _ | JObj _ => "[object Object]"
  end.

Definition entry (name : string) (data : list (string * JsVal)) : option JsVal :=
  snd <$> List.find (fun kv => String.eqb (fst kv) name) data.

Definition prepend (s : string) (rest : Outcome string) : Outcome string :=
  match rest with
  | Returned t => Returned (s +:+ t)
  | Threw e => Threw e
  end.

Fixpoint fill (template : string) (name : option string)
    (data : list (string * JsVal)) : Outcome string :=
  match template, name with
  | EmptyString, None => Returned ""
  | EmptyString, Some n => Returned ("{" +:+ n)
  | String c rest, Some n =>
      if Ascii.eqb c "}" then
        match entry n data with
        | Some v => prepend (text_of v) (fill rest None data)
        | None => Threw (ReferenceError n)
        end
      else fill rest (Some (n +:+ String c EmptyString)) data
  | String c rest, None =>
      if Ascii.eqb c "{" then fill rest (Some "") data
      else if Ascii.eqb c "\" then
        match rest with
        | String c' rest' =>
            if Ascii.eqb c' "{" || Ascii.eqb c' "}"
            then prepend (String c' EmptyString) (fill rest' None data)
            else prepend (String c EmptyString) (fill rest None data)
        | EmptyString => Returned (String c EmptyString)
        end
      else prepend (String c EmptyString) (fill rest None data)
  end.

Definition sample_tpl (template : string) (data : list (string * JsVal)) : Outcome string :=
  fill template None data.

Definition matchHelperOptions (key : string) : HelperOptions := {|
  flagKey := key;
  flagName := "Match helper";
  helperName := "match";
  errorMessage := None;
  errorContext := None;
  errorHelp := None;
  helpUrl := Some "https://ghost.org/docs/themes/";
  async := JBool true
|}.

Definition w_mixed : World := {|
  labsSetting :=
    CachedObject
      (<[ "oauthLogin" := JBool true ]>
         (<[ "activitypub" := JBool true ]>
            (<[ "urlCache" := JBool false ]>
               {[ "customThemeSettings" := JBool false ]})));
  membersSignupAccess := JStr "none";
  enableDeveloperExperiments := JBool false;
  NODE_ENV := Some "production";
  heap := ∅;
  errorLog := []
|}.


(** Options in which an empty replacement text is left out. *)
Definition drop_empty (a : option string) : option string :=
  match a with
  | Some s => if String.eqb s "" then None else Some s
  | None => None
  end.

Definition without_empty_overrides (options : HelperOptions) : HelperOptions := {|
  flagKey := flagKey options;
  flagName := flagName options;
  helperName := helperName options;
  errorMessage := drop_empty (errorMessage options);
  errorContext := drop_empty (errorContext options);
  errorHelp := drop_empty (errorHelp options);
  helpUrl := helpUrl options;
  async := async options
|}.

(** Options that replace the message by a template naming a placeholder
    the helper does not pass. *)
Definition badMessageOptions (key : string) : HelperOptions := {|
  flagKey := key;
  flagName := "Match helper";
  helperName := "match";
  errorMessage := Some "Enable {flag}";
  errorContext := None;
  errorHelp := None;
  helpUrl := None;
  async := JBool false
|}.

Definition w_alpha_off : World := {|
  labsSetting := CachedObject {[ "urlCache" := JBool false ]};
  membersSignupAccess := JStr "all";
  enableDeveloperExperiments := JBool false;
  NODE_ENV := Some "production";
  heap := ∅;
  errorLog := []
|}.

End Labs.

Module E2E.

(** ** The world outside e2e-utils.js

    Everything the utilities call is external: the database, the file
    system, the services and the server.  A call is an [Op]; what it answers
    is decided by the environment from the history of events so far. *)

Definition Err := string.

Record Server := { httpServer : bool }.

Inductive Val : Type :=
| VUndefined
| VNum (n : Z)
| VServer (srv : Server)
| VOpaque (id : nat).

Inductive Model : Type := Role | User | Tag | ApiKey.

Inductive FindOptions : Type :=
| Columns (columns : list string)
| WithRelated (relation : string).

Inductive Op : Type :=
| ConfigSet (key value : string)             (* configUtils.set *)
| EnsureDirSync (dir : string)               (* fs.ensureDirSync *)
| CopySync (src dst : string)                (* fs.copySync *)
| RedirectsSetupFile (folder ext : string)   (* redirects.setupFile *)
| DbTeardown                                 (* dbUtils.teardown *)
| KnexInit (only : option Z)                 (* knexMigrator.init *)
| KnexReset (force : bool)                   (* knexMigrator.reset *)
| SettingsInit                               (* settingsService.init *)
| SettingsShutdown                           (* settingsService.shutdown *)
| RouteSettingsInit                          (* routeSettingsService.init *)
| ThemeInit                                  (* themeService.init *)
| UrlUtilsReset                              (* urlServiceUtils.reset *)
| UrlUtilsInit (urlCache : bool)             (* urlServiceUtils.init *)
| UrlUtilsIsFinished                         (* urlServiceUtils.isFinished *)
| CustomRedirectsInit                        (* customRedirectsService.init *)
| LimitsInit                                 (* limits.init *)
| Boot (backend frontend : bool)             (* boot *)
| ServerStop                                 (* ghostServer.stop *)
| RequireCacheDelete (module : string)       (* delete require.cache[require.resolve(..)] *)
| UrlServiceResetGenerators                  (* urlService.resetGenerators *)
| FindAll (model : Model) (options : FindOptions)  (* models.X.findAll *)
| ToJSON (key : string) (collection : Val).  (* results[i].toJSON(context.internal) *)

(** A synchronous call returns or throws; a promise resolves or rejects. *)
Inductive Response : Type :=
| Ok (v : Val)
| Fail (e : Err).

Inductive DebugMsg : Type :=
| Text (s : string)
| StartedIn (totalTime : Z)        (* `Started Ghost in ${totalTime / 1000}s` *)
| AccumulatedIs (total : Z).       (* `Accumulated start time is ${totalStartTime / 1000}s` *)

Inductive Event : Type :=
| Called (op : Op) (r : Response)    (* a synchronous call and its outcome *)
| Started (op : Op)                  (* an asynchronous call was issued *)
| Settled (op : Op) (r : Response)   (* its promise settled *)
| Debugged (m : DebugMsg)            (* debug(...) *)
| ConsoleError (msg : string) (e : Err)
| ProcessExit (code : Z).

(** What the environment decides: the answer of every call, which of the
    calls still pending settles next, the clock, and the values and
    library functions the utilities take from Node.  [path.join] is one of
    them: it joins the segments and normalises the result, and nothing
    below depends on how. *)
Record Env := {
  respond : list Event -> Op -> Response;
  settles_next : list Event -> list Op -> nat;
                                       (* which pending call settles next *)
  now : list Event -> Z;               (* Date.now() *)
  os_tmpdir : string;                  (* os.tmpdir() *)
  uuid_v4 : string;                    (* uuid.v4() *)
  dirname : string;                    (* __dirname *)
  path_join : list string -> string    (* path.join(...) *)
}.

(** The module-level variables. *)
Record State := {
  ghostServer : Val;
  existingData : list (string * Val);
  totalStartTime : Z
}.

Definition set_ghostServer (v : Val) (s : State) : State :=
  {| ghostServer := v; existingData := existingData s; totalStartTime := totalStartTime s |}.

Definition set_existingData (d : list (string * Val)) (s : State) : State :=
  {| ghostServer := ghostServer s; existingData := d; totalStartTime := totalStartTime s |}.

Definition set_totalStartTime (t : Z) (s : State) : State :=
  {| ghostServer := ghostServer s; existingData := existingData s; totalStartTime := t |}.

(** ** Computations

    A computation reads the history, changes the module state, emits events
    and ends by returning, by throwing, or with the process exiting. *)

Inductive Result (A : Type) : Type :=
| Done (a : A)
| Thrown (e : Err)
| Exited (code : Z).
Arguments Done {A} a.
Arguments Thrown {A} e.
Arguments Exited {A} code.

Definition M (A : Type) : Type :=
  list Event -> State -> Result A * list Event * State.

Definition ret {A} (a : A) : M A := fun _ s => (Done a, [], s).

Definition bind {A B} (m : M A) (k : A -> M B) : M B :=
  fun h s =>
    match m h s with
    | (Done a, evs, s1) =>
        let '(r, evs', s2) := k a (h ++ evs) s1 in (r, evs ++ evs', s2)
    | (Thrown e, evs, s1) => (Thrown e, evs, s1)
    | (Exited c, evs, s1) => (Exited c, evs, s1)
    end.

Notation "'let*' x ':=' m 'in' k" := (bind m (fun x => k))
  (at level 10, x name, m at level 100, k at level 200).
Notation "m ';;' k" := (bind m (fun _ => k))
  (at level 100, k at level 200, right associativity).

(** [promise.catch(handler)] / [try .. catch] *)
Definition catch {A} (m : M A) (handler : Err -> M A) : M A :=
  fun h s =>
    match m h s with
    | (Thrown e, evs, s1) =>
        let '(r, evs', s2) := handler e (h ++ evs) s1 in (r, evs ++ evs', s2)
    | other => other
    end.

Definition throw {A} (e : Err) : M A := fun _ s => (Thrown e, [], s).
Definition get {A} (f : State -> A) : M A := fun _ s => (Done (f s), [], s).
Definition modify (f : State -> State) : M unit := fun _ s => (Done tt, [], f s).
Definition emit (ev : Event) : M unit := fun _ s => (Done tt, [ev], s).
Definition history : M (list Event) := fun h s => (Done h, [], s).

Definition of_response (r : Response) : Result Val :=
  match r with
  | Ok v => Done v
  | Fail e => Thrown e
  end.

Section WithEnv.

Variable env : Env.

(** A synchronous call. *)
Definition call (op : Op) : M Val :=
  fun h s => let r := respond env h op in (of_response r, [Called op r], s).

(** [await f(..)]: the call is issued and execution resumes once its
    promise has settled. *)
Definition await (op : Op) : M Val :=
  fun h s => let r := respond env h op in (of_response r, [Started op; Settled op r], s).

(** An asynchronous call that is not awaited: it hands back a promise,
    which will settle the way the environment decides. *)
Definition Promise : Type := Op * Response.

Definition start (op : Op) : M Promise :=
  fun h s => (Done (op, respond env h op), [Started op], s).

(** Of the promises still pending, the one that settles next is the one
    the environment chooses: [settles_next] gives its position among the
    pending calls (counted modulo their number). *)
Definition pick {A} (i : nat) (l : list A) : option (A * list A) :=
  let j := i mod length l in
  match l !! j with
  | Some x => Some (x, delete j l)
  | None => None
  end.

(** Waiting for the pending promises: they settle one at a time, in the
    order the environment decides, and the wait ends with the first that
    rejects, or when none is pending any more. *)
Fixpoint settle_all (n : nat) (pending : list Promise) : M unit :=
  match n with
  | 0 => ret tt
  | S n' =>
      let* h := history in
      match pick (settles_next env h (fst <$> pending)) pending with
      | Some ((op, r), rest) =>
          emit (Settled op r) ;;
          match r with
          | Ok _ => settle_all n' rest
          | Fail e => throw e
          end
      | None => ret tt
      end
  end.

Definition value_of (p : Promise) : option Val :=
  match snd p with
  | Ok v => Some v
  | Fail _ => None
  end.

(** [Promise.all(ps)]: rejects as soon as one of the promises rejects, with
    its error; resolves once every promise has resolved, with their values
    in the order of [ps], whatever the order in which they settled. *)
Definition promise_all (ps : list Promise) : M (list Val) :=
  settle_all (length ps) ps ;;
  ret (omap value_of ps).

Definition debug (m : DebugMsg) : M unit := emit (Debugged m).
Definition console_error (msg : string) (e : Err) : M unit := emit (ConsoleError msg e).
Definition process_exit {A} (code : Z) : M A := fun _ s => (Exited code, [ProcessExit code], s).
Definition Date_now : M Z := fun h s => (Done (now env h), [], s).

Definition when (b : bool) (m : M unit) : M unit := if b then m else ret tt.

Fixpoint for_each {A} (l : list A) (body : A -> M unit) : M unit :=
  match l with
  | [] => ret tt
  | x :: l' => body x ;; for_each l' body
  end.

(** ** exposeFixtures *)

Definition set_key (k : string) (v : Val) (d : list (string * Val)) : list (string * Val) :=
  if existsb (fun kv => String.eqb (fst kv) k) d
  then List.map (fun kv => if String.eqb (fst kv) k then (k, v) else kv) d
  else d ++ [(k, v)].

Definition exposeFixtures : M unit :=
  let* roles := start (FindAll Role (Columns ["id"])) in
  let* users := start (FindAll User (Columns ["id"; "email"])) in
  let* tags := start (FindAll Tag (Columns ["id"])) in
  let* apiKeys := start (FindAll ApiKey (WithRelated "integration")) in
  let fixturePromises :=
    [("roles", roles); ("users", users); ("tags", tags); ("apiKeys", apiKeys)] in
  let keys := List.map fst fixturePromises in
  modify (set_existingData []) ;;
  catch
    (let* results := promise_all (List.map snd fixturePromises) in
     for_each (combine keys results) (fun '(key, result) =>
       let* json := call (ToJSON key result) in
       modify (fun s => set_existingData (set_key key json (existingData s)) s)))
    (fun err =>
       console_error "Unable to expose fixtures" err ;;
       process_exit 1).

(** ** Options *)

Record Options := {
  backend : bool;
  frontend : bool;
  redirectsFile : bool;
  redirectsFileExt : string;
  forceStart : bool;
  copyThemes : bool;
  copySettings : bool;
  contentFolder : string;
  subdir : bool
}.

(** What the caller passes: any option may be left out. *)
Record GivenOptions := {
  given_backend : option bool;
  given_frontend : option bool;
  given_redirectsFile : option bool;
  given_redirectsFileExt : option string;
  given_forceStart : option bool;
  given_copyThemes : option bool;
  given_copySettings : option bool;
  given_contentFolder : option string;
  given_subdir : option bool
}.

(** [_.merge(defaults, options)] *)
Definition merge_defaults (options : GivenOptions) : Options := {|
  backend := default true (given_backend options);
  frontend := default true (given_frontend options);
  redirectsFile := default true (given_redirectsFile options);
  redirectsFileExt := default ".json" (given_redirectsFileExt options);
  forceStart := default false (given_forceStart options);
  copyThemes := default true (given_copyThemes options);
  copySettings := default true (given_copySettings options);
  contentFolder := default (path_join env [os_tmpdir env; uuid_v4 env; "ghost-test"])
                           (given_contentFolder options);
  subdir := default false (given_subdir options)
|}.

(** A call made for its effect only. *)
Definition call_ (op : Op) : M unit := call op ;; ret tt.
Definition await_ (op : Op) : M unit := await op ;; ret tt.

(** ** prepareContentFolder *)

Definition prepareContentFolder (options : Options) : M unit :=
  let contentFolderForTests := contentFolder options in
  call_ (ConfigSet "paths:contentPath" contentFolderForTests) ;;
  call_ (EnsureDirSync contentFolderForTests) ;;
  call_ (EnsureDirSync (path_join env [contentFolderForTests; "data"])) ;;
  call_ (EnsureDirSync (path_join env [contentFolderForTests; "themes"])) ;;
  call_ (EnsureDirSync (path_join env [contentFolderForTests; "images"])) ;;
  call_ (EnsureDirSync (path_join env [contentFolderForTests; "logs"])) ;;
  call_ (EnsureDirSync (path_join env [contentFolderForTests; "adapters"])) ;;
  call_ (EnsureDirSync (path_join env [contentFolderForTests; "settings"])) ;;
  when (copyThemes options)
    (call_ (CopySync (path_join env [dirname env; "fixtures"; "themes"])
                     (path_join env [contentFolderForTests; "themes"]))) ;;
  when (redirectsFile options)
    (call_ (RedirectsSetupFile contentFolderForTests (redirectsFileExt options))) ;;
  when (copySettings options)
    (call_ (CopySync (path_join env [dirname env; "fixtures"; "settings"; "routes.yaml"])
                     (path_join env [contentFolderForTests; "settings"; "routes.yaml"]))).

(** ** restartModeGhostStart *)

Definition restartModeGhostStart (options : Options) : M unit :=
  let frontend := frontend options in
  debug (Text "Reload Mode") ;;
  await_ DbTeardown ;;
  await_ (KnexInit (Some 2%Z)) ;;
  debug (Text "init done") ;;
  await_ SettingsInit ;;
  debug (Text "settings done") ;;
  when frontend
    (await_ RouteSettingsInit ;;
     await_ ThemeInit ;;
     debug (Text "frontend done")) ;;
  call_ UrlUtilsReset ;;
  call_ (UrlUtilsInit (negb frontend)) ;;
  when frontend (await_ UrlUtilsIsFinished) ;;
  debug (Text "routes done") ;;
  await_ CustomRedirectsInit ;;
  call_ LimitsInit.

(** ** bootGhost and stopGhost *)

Definition bootGhost (options : Options) : M unit :=
  let* server := await (Boot (backend options) (frontend options)) in
  modify (set_ghostServer server).

(** [ghostServer && ghostServer.httpServer] *)
Definition running (server : Val) : bool :=
  match server with
  | VServer srv => httpServer srv
  | _ => false
  end.

Definition stopGhost : M unit :=
  let* server := get ghostServer in
  when (running server)
    (await_ ServerStop ;;
     call_ (RequireCacheDelete "../../core/app") ;;
     call_ UrlServiceResetGenerators).

(** ** freshModeGhostStart *)

Definition freshModeGhostStart (options : Options) : M unit :=
  (if forceStart options
   then debug (Text "Forced Restart Mode")
   else debug (Text "Fresh Start Mode")) ;;
  await_ (KnexReset true) ;;
  stopGhost ;;
  call_ SettingsShutdown ;;
  await_ (KnexInit None) ;;
  await_ SettingsInit ;;
  call_ UrlServiceResetGenerators ;;
  bootGhost options ;;
  when (frontend options) (await_ UrlUtilsIsFinished).

(** ** startGhost *)

Definition startGhost (given : GivenOptions) : M Val :=
  let* startTime := Date_now in
  debug (Text "Start Ghost") ;;
  let options := merge_defaults given in
  prepareContentFolder options ;;
  let* server := get ghostServer in
  (if running server && negb (forceStart options)
   then restartModeGhostStart options
   else freshModeGhostStart options) ;;
  exposeFixtures ;;
  let* endTime := Date_now in
  let totalTime := (endTime - startTime)%Z in
  modify (fun s => set_totalStartTime (totalStartTime s + totalTime)%Z s) ;;
  debug (StartedIn totalTime) ;;
  let* total := get totalStartTime in
  debug (AccumulatedIs total) ;;
  get ghostServer.

End WithEnv.

(** ** Observing a run *)

Definition res_of {A} (x : Result A * list Event * State) : Result A := x.1.1.
Definition evs_of {A} (x : Result A * list Event * State) : list Event := x.1.2.
Definition st_of {A} (x : Result A * list Event * State) : State := x.2.

(** An event with the outcome left out. *)
Inductive Kind : Type :=
| KCalled (op : Op)
| KStarted (op : Op)
| KSettled (op : Op)
| KDebugged (m : DebugMsg)
| KConsoleError (msg : string)
| KProcessExit (code : Z).

Definition kind (ev : Event) : Kind :=
  match ev with
  | Called op _ => KCalled op
  | Started op => KStarted op
  | Settled op _ => KSettled op
  | Debugged m => KDebugged m
  | ConsoleError msg _ => KConsoleError msg
  | ProcessExit code => KProcessExit code
  end.

#[global] Instance Server_eq_dec : EqDecision Server.
Proof. solve_decision. Defined.
#[global] Instance Val_eq_dec : EqDecision Val.
Proof. solve_decision. Defined.
#[global] Instance Model_eq_dec : EqDecision Model.
Proof. solve_decision. Defined.
#[global] Instance FindOptions_eq_dec : EqDecision FindOptions.
Proof. solve_decision. Defined.
#[global] Instance Op_eq_dec : EqDecision Op.
Proof. solve_decision. Defined.
#[global] Instance DebugMsg_eq_dec : EqDecision DebugMsg.
Proof. solve_decision. Defined.
#[global] Instance Kind_eq_dec : EqDecision Kind.
Proof. solve_decision. Defined.

(** The error with which a call threw or a promise rejected. *)
Definition failure_of (ev : Event) : option Err :=
  match ev with
  | Called _ (Fail e) | Settled _ (Fail e) => Some e
  | _ => None
  end.

Definition failed (ev : Event) : bool :=
  match failure_of ev with Some _ => true | None => false end.

(** No asynchronous call is issued while another one is pending: each
    [Started] is directly followed by the [Settled] of the same call. *)
Fixpoint sequential (evs : list Event) : bool :=
  match evs with
  | [] => true
  | Started op :: rest =>
      match rest with
      | Settled op' _ :: rest' => bool_decide (op = op') && sequential rest'
      | _ => false
      end
  | Settled _ _ :: _ => false
  | _ :: rest => sequential rest
  end.

(** Nothing is emitted after a failure. *)
Definition stops_at_failure (evs : list Event) : bool :=
  forallb (fun ev => negb (failed ev)) (removelast evs).

(** Whenever [b] occurs, [a] has occurred before it. *)
Definition precedes {A} (a b : A) (l : list A) : Prop :=
  forall i, l !! i = Some b -> exists j, j < i /\ l !! j = Some a.

(** The runbook of the restart path. *)
Definition restart_runbook (frontend : bool) : list Kind :=
  [ KDebugged (Text "Reload Mode");
    KStarted DbTeardown; KSettled DbTeardown;
    KStarted (KnexInit (Some 2%Z)); KSettled (KnexInit (Some 2%Z));
    KDebugged (Text "init done");
    KStarted SettingsInit; KSettled SettingsInit;
    KDebugged (Text "settings done") ]
  ++ (if frontend
      then [ KStarted RouteSettingsInit; KSettled RouteSettingsInit;
             KStarted ThemeInit; KSettled ThemeInit;
             KDebugged (Text "frontend done") ]
      else [])
  ++ [ KCalled UrlUtilsReset; KCalled (UrlUtilsInit (negb frontend)) ]
  ++ (if frontend
      then [ KStarted UrlUtilsIsFinished; KSettled UrlUtilsIsFinished ]
      else [])
  ++ [ KDebugged (Text "routes done");
       KStarted CustomRedirectsInit; KSettled CustomRedirectsInit;
       KCalled LimitsInit ].

(** Sample environments.  Their segments need no normalising, so joining
    them with '/' is what [path.join] gives; unless said otherwise, promises
    settle in the order their calls were issued. *)
Definition env_all_ok : Env := {|
  respond := fun _ _ => Ok VUndefined;
  settles_next := fun _ _ => 0;
  now := fun h => Z.of_nat (length h);
  os_tmpdir := "/tmp";
  uuid_v4 := "5f2f4b3e-0d0a-4c58-9d53-2f5a1c3a9b10";
  dirname := "/ghost/test/utils";
  path_join := String.concat "/"
|}.

Definition no_options : GivenOptions := {|
  given_backend := None;
  given_frontend := None;
  given_redirectsFile := None;
  given_redirectsFileExt := None;
  given_forceStart := None;
  given_copyThemes := None;
  given_copySettings := None;
  given_contentFolder := None;
  given_subdir := None
|}.

Definition initial_state : State := {|
  ghostServer := VUndefined;
  existingData := [];
  totalStartTime := 0
|}.

(** ** Invariants of computations *)

Definition is_fixture_op (op : Op) : bool :=
  match op with
  | FindAll _ _ | ToJSON _ _ => true
  | _ => false
  end.

Definition is_fixture (ev : Event) : bool :=
  match ev with
  | Called op _ | Started op | Settled op _ => is_fixture_op op
  | _ => false
  end.

(** Not a failure, or a failure of fixture exposure. *)
Definition benign (ev : Event) : bool := negb (failed ev) || is_fixture ev.

(** Every event a computation emits passes the test [q]. *)
Definition quiet {A} (q : Event -> bool) (m : M A) : Prop :=
  forall h s, forallb q (evs_of (m h s)) = true.

(** A computation never ends by throwing. *)
Definition no_throw {A} (m : M A) : Prop :=
  forall h s e, res_of (m h s) <> Thrown e.

(** A computation leaves the module state alone. *)
Definition stateless {A} (m : M A) : Prop :=
  forall h s, st_of (m h s) = s.

(** How a run relates its result to its failures: a thrown error is the
    failure of the last event, and no other failure outside fixture
    exposure has occurred. *)
Definition propagated {A} (r : Result A) (evs : list Event) : Prop :=
  match r with
  | Thrown e =>
      exists evs0 ev, evs = evs0 ++ [ev] /\ failure_of ev = Some e
                      /\ forallb benign evs0 = true
  | _ => forallb benign evs = true
  end.

Definition fail_stop {A} (m : M A) : Prop :=
  forall h s, propagated (res_of (m h s)) (evs_of (m h s)).

(** ** Fixture exposure and error propagation *)

(** An event is the resolution of one of the promises [ps]. *)
Definition resolution_of (ps : list Promise) (ev : Event) : Prop :=
  exists op v, ev = Settled op (Ok v) /\ (op, Ok v) ∈ ps.

(** The part of [exposeFixtures] that follows the four queries and the
    reset of the exposed data. *)
Definition expose_results (env : Env) (fixturePromises : list (string * Promise)) : M unit :=
  let keys := List.map fst fixturePromises in
  catch
    (let* results := promise_all env (List.map snd fixturePromises) in
     for_each (combine keys results) (fun '(key, result) =>
       let* json := call env (ToJSON key result) in
       modify (fun s => set_existingData (set_key key json (existingData s)) s)))
    (fun err =>
       console_error "Unable to expose fixtures" err ;;
       process_exit 1).

(** What the promises of the four fixture queries settle to when the
    queries are issued one after the other from history [h]. *)
Definition fixtureAnswers (env : Env) (h : list Event) : list Response :=
  [ respond env h (FindAll Role (Columns ["id"]));
    respond env (h ++ [Started (FindAll Role (Columns ["id"]))])
            (FindAll User (Columns ["id"; "email"]));
    respond env ((h ++ [Started (FindAll Role (Columns ["id"]))])
                   ++ [Started (FindAll User (Columns ["id"; "email"]))])
            (FindAll Tag (Columns ["id"]));
    respond env (((h ++ [Started (FindAll Role (Columns ["id"]))])
                    ++ [Started (FindAll User (Columns ["id"; "email"]))])
                   ++ [Started (FindAll Tag (Columns ["id"]))])
            (FindAll ApiKey (WithRelated "integration")) ].

(** The tags query is rejected; of the pending queries the last issued
    settles first. *)
Definition env_tags_rejected : Env := {|
  respond := fun _ op =>
    match op with
    | FindAll Tag _ => Fail "ER_NO_SUCH_TABLE"
    | _ => Ok VUndefined
    end;
  settles_next := fun _ pending => Nat.pred (length pending);
  now := fun h => Z.of_nat (length h);
  os_tmpdir := "/tmp";
  uuid_v4 := "5f2f4b3e-0d0a-4c58-9d53-2f5a1c3a9b10";
  dirname := "/ghost/test/utils";
  path_join := String.concat "/"
|}.

Definition env_db_down : Env := {|
  respond := fun _ op =>
    match op with
    | KnexReset _ => Fail "ECONNREFUSED"
    | _ => Ok VUndefined
    end;
  settles_next := fun _ _ => 0;
  now := fun h => Z.of_nat (length h);
  os_tmpdir := "/tmp";
  uuid_v4 := "5f2f4b3e-0d0a-4c58-9d53-2f5a1c3a9b10";
  dirname := "/ghost/test/utils";
  path_join := String.concat "/"
|}.

(** ** The two start paths *)

(** Each path announces itself with [debug] as its first statement. *)
Definition entered_restart (evs : list Event) : Prop :=
  Debugged (Text "Reload Mode") ∈ evs.

Definition entered_fresh (evs : list Event) : Prop :=
  Debugged (Text "Forced Restart Mode") ∈ evs
  \/ Debugged (Text "Fresh Start Mode") ∈ evs.

(** The event is not a [debug] of one of the given texts. *)
Definition not_text (ts : list string) (ev : Event) : bool :=
  match ev with
  | Debugged (Text t) => negb (existsb (String.eqb t) ts)
  | _ => true
  end.

Definition restart_texts : list string := [ "Reload Mode" ].
Definition fresh_texts : list string := [ "Forced Restart Mode"; "Fresh Start Mode" ].

(** What [startGhost] does once the start path has returned. *)
Definition finish (env : Env) (startTime : Z) : M Val :=
  exposeFixtures env ;;
  let* endTime := Date_now env in
  let totalTime := (endTime - startTime)%Z in
  modify (fun s => set_totalStartTime (totalStartTime s + totalTime)%Z s) ;;
  debug (StartedIn totalTime) ;;
  let* total := get totalStartTime in
  debug (AccumulatedIs total) ;;
  get ghostServer.

(** The start path [startGhost] takes. *)
Definition start_path (env : Env) (options : Options) (s : State) : M unit :=
  if running (ghostServer s) && negb (forceStart options)
  then restartModeGhostStart env options
  else freshModeGhostStart env options.

Definition env_readonly_tmp : Env := {|
  respond := fun _ op =>
    match op with
    | EnsureDirSync _ => Fail "EACCES"
    | _ => Ok VUndefined
    end;
  settles_next := fun _ _ => 0;
  now := fun h => Z.of_nat (length h);
  os_tmpdir := "/tmp";
  uuid_v4 := "5f2f4b3e-0d0a-4c58-9d53-2f5a1c3a9b10";
  dirname := "/ghost/test/utils";
  path_join := String.concat "/"
|}.

Definition running_state : State := {|
  ghostServer := VServer {| httpServer := true |};
  existingData := [];
  totalStartTime := 0
|}.

(** ** getExistingData *)

Definition getExistingData : M (list (string * Val)) := get existingData.

(** ** Further notions used in the statements *)

Definition op_of (ev : Event) : option Op :=
  match ev with
  | Called op _ | Started op | Settled op _ => Some op
  | _ => None
  end.


(** The runbook of [stopGhost] when a server is running. *)
Definition stop_runbook : list Kind :=
  [ KStarted ServerStop; KSettled ServerStop;
    KCalled (RequireCacheDelete "../../core/app");
    KCalled UrlServiceResetGenerators ].

(** The runbook of the fresh-start path. *)
Definition fresh_runbook (options : Options) (wasRunning : bool) : list Kind :=
  [ KDebugged (Text (if forceStart options
                     then "Forced Restart Mode" else "Fresh Start Mode"));
    KStarted (KnexReset true); KSettled (KnexReset true) ]
  ++ (if wasRunning then stop_runbook else [])
  ++ [ KCalled SettingsShutdown;
       KStarted (KnexInit None); KSettled (KnexInit None);
       KStarted SettingsInit; KSettled SettingsInit;
       KCalled UrlServiceResetGenerators;
       KStarted (Boot (backend options) (frontend options));
       KSettled (Boot (backend options) (frontend options)) ]
  ++ (if frontend options
      then [ KStarted UrlUtilsIsFinished; KSettled UrlUtilsIsFinished ]
      else []).

(** What [boot] resolved with, when it did. *)
Definition booted (evs : list Event) : option Val :=
  last (omap (fun ev => match ev with
                        | Settled (Boot _ _) (Ok v) => Some v
                        | _ => None
                        end) evs).

(** The collections [toJSON] was called on, with their keys. *)
Definition serialised (evs : list Event) : list (string * Val) :=
  omap (fun ev => match ev with
                  | Called (ToJSON key collection) _ => Some (key, collection)
                  | _ => None
                  end) evs.

(** The fixtures serialised so far: one entry per [toJSON] that returned. *)
Definition fixture_data (evs : list Event) : list (string * Val) :=
  omap (fun ev => match ev with
                  | Called (ToJSON key _) (Ok json) => Some (key, json)
                  | _ => None
                  end) evs.

(** Calls made on one start path only. *)
Definition fresh_only (op : Op) : bool :=
  match op with
  | Boot _ _ | KnexReset _ | ServerStop | SettingsShutdown
  | RequireCacheDelete _ | UrlServiceResetGenerators | KnexInit None => true
  | _ => false
  end.

Definition restart_only (op : Op) : bool :=
  match op with
  | DbTeardown | KnexInit (Some _) | RouteSettingsInit | ThemeInit
  | UrlUtilsReset | UrlUtilsInit _ | CustomRedirectsInit | LimitsInit => true
  | _ => false
  end.

(** The event is not a call of a kind [P]. *)
Definition avoids (P : Op -> bool) (ev : Event) : bool :=
  match op_of ev with
  | Some op => negb (P op)
  | None => true
  end.


End E2E.

(** * Properties of the labs module *)

Module LabsFacts.

Import Labs.

(** ** Properties of the store operations *)

Lemma cloneDeepVal_id (v : JsVal) : cloneDeepVal v = v.
Proof.
  revert v. fix IH 1. intros [| |b|n|s|items|members]; simpl; try reflexivity.
  - f_equal. induction items as [|x xs IHxs]; simpl; [reflexivity|].
    rewrite IH, IHxs. reflexivity.
  - f_equal. induction members as [|[k x] xs IHxs]; simpl; [reflexivity|].
    rewrite IH, IHxs. reflexivity.
Qed.

Lemma cloneDeep_object (o : JsObject) : cloneDeepVal <$> o = o.
Proof.
  rewrite <- (map_fmap_id o) at 2. apply map_fmap_ext.
  intros k v _. apply cloneDeepVal_id.
Qed.

Lemma updObj_put l f o w :
  updObj (Allocated l) f (put l o w) = put l (f o) w.
Proof.
  unfold updObj, put, set_heap; simpl.
  rewrite alter_insert_eq. reflexivity.
Qed.

Lemma getProp_put l k o w :
  getProp (Allocated l) k (put l o w) = default JUndefined (o !! k).
Proof.
  unfold getProp, objAt, put, set_heap; simpl.
  rewrite lookup_insert_eq. reflexivity.
Qed.

Lemma objAt_put l o w : objAt (Allocated l) (put l o w) = o.
Proof. unfold objAt, put, set_heap; simpl. rewrite lookup_insert_eq. reflexivity. Qed.

(** The loop over the alpha keys, on a new object: it deletes as
    [alphaStep] does when the environment test returns, and throws at the
    first truthy key when that test throws. *)
Lemma alpha_loop_put l w ks : forall o,
  forEach ks
    (fun alphaKey w =>
       if truthy (getV (Obj (Allocated l)) alphaKey w) then
         match developerExperimentsOrTest w with
         | Returned true => (Returned tt, w)
         | Returned false => (Returned tt, deleteV (Obj (Allocated l)) alphaKey w)
         | Threw e => (Threw e, w)
         end
       else (Returned tt, w))
    (put l o w)
  = match developerExperimentsOrTest w with
    | Returned dev => (Returned tt, put l (foldl (alphaStep dev) o ks) w)
    | Threw e =>
        if existsb (fun k => truthy (default JUndefined (o !! k))) ks
        then (Threw e, put l o w)
        else (Returned tt, put l o w)
    end.
Proof.
  induction ks as [|k ks IH]; intros o; cbn [forEach foldl existsb].
  - destruct (developerExperimentsOrTest w); reflexivity.
  - cbn [getV deleteV]. rewrite getProp_put. unfold deleteProp. rewrite updObj_put.
    change (developerExperimentsOrTest (put l o w)) with (developerExperimentsOrTest w).
    unfold alphaStep at 2.
    destruct (truthy (default JUndefined (o !! k))) eqn:Ht; cbn [andb orb].
    + pose proof (IH o) as IH1. pose proof (IH (delete k o)) as IH2.
      destruct (developerExperimentsOrTest w) as [[|]|e]; cbn [negb];
        [exact IH1 | exact IH2 | reflexivity].
    + apply IH.
Qed.

Lemma ga_loop_put l w ks : forall o,
  foldl (fun w gaKey => setV (Obj (Allocated l)) gaKey (JBool true) w) (put l o w) ks
  = put l (foldl gaStep o ks) w.
Proof.
  induction ks as [|k ks IH]; intros o; cbn [foldl]; [reflexivity|].
  cbn [setV]. unfold setProp. rewrite updObj_put. apply IH.
Qed.

Lemma alpha_loop_dev o ks : foldl (alphaStep true) o ks = o.
Proof.
  induction ks as [|a ks IH]; simpl; [reflexivity|].
  unfold alphaStep at 2. rewrite andb_false_r. exact IH.
Qed.

Lemma alpha_loop_falsy dev ks : forall (o : JsObject),
  existsb (fun k => truthy (default JUndefined (o !! k))) ks = false ->
  foldl (alphaStep dev) o ks = o.
Proof.
  induction ks as [|a ks IH]; intros o H; cbn [foldl existsb] in *; [reflexivity|].
  apply orb_false_iff in H as [Ha Hks].
  unfold alphaStep at 2. rewrite Ha. cbn [andb]. apply IH, Hks.
Qed.

(** The start of [getAll]: the clone of the cached object, a new empty
    object, or the truthy primitive the cache holds. *)
Lemma getAll_start w :
  (let '(cloned, w1) := cloneDeep (settingsCache_get_labs w) w in
   if truthyV cloned then (cloned, w1)
   else let '(r, w2) := alloc ∅ w1 in (Obj r, w2))
  = match truthy_primitive w with
    | Some p => (Prim p, w)
    | None => (Obj (Allocated (fresh (dom (heap w)))),
               put (fresh (dom (heap w))) (objAt CachedLabs w) w)
    end.
Proof.
  unfold settingsCache_get_labs, truthy_primitive, cloneDeep, alloc, put, objAt.
  destruct (labsSetting w) as [p|o] eqn:E; cbn [truthyV].
  - destruct (truthy (prim_val p)); reflexivity.
  - rewrite cloneDeep_object. reflexivity.
Qed.

Lemma primProp_alpha p k : k ∈ ALPHA_FEATURES -> primProp p k = JUndefined.
Proof.
  intros Hk.
  assert (Hall : Forall (fun a => String.eqb a "length" = false /\ array_index a = None)
                        ALPHA_FEATURES).
  { repeat constructor. }
  rewrite Forall_forall in Hall. destruct (Hall k Hk) as [Hl Hi].
  destruct p as [| |b|n|s]; try reflexivity.
  unfold primProp. rewrite Hl, Hi. reflexivity.
Qed.

Lemma primProp_not_true p k : strict_eq_true (primProp p k) = false.
Proof.
  destruct p as [| |b|n|s]; try reflexivity.
  unfold primProp. destruct (String.eqb k "length"); [reflexivity|].
  destruct (array_index k) as [i|]; [|reflexivity].
  destruct (String.get i s); reflexivity.
Qed.

(** On a primitive the loop over the alpha keys finds nothing to delete. *)
Lemma alpha_loop_prim p ks w :
  Forall (fun k => k ∈ ALPHA_FEATURES) ks ->
  forEach ks
    (fun alphaKey w =>
       if truthy (getV (Prim p) alphaKey w) then
         match developerExperimentsOrTest w with
         | Returned true => (Returned tt, w)
         | Returned false => (Returned tt, deleteV (Prim p) alphaKey w)
         | Threw e => (Threw e, w)
         end
       else (Returned tt, w))
    w
  = (Returned tt, w).
Proof.
  induction 1 as [|k ks Hk _ IH]; cbn [forEach]; [reflexivity|].
  cbn [getV]. rewrite (primProp_alpha p k Hk). cbn [truthy]. exact IH.
Qed.

Lemma ga_loop_prim p ks w :
  foldl (fun w gaKey => setV (Prim p) gaKey (JBool true) w) w ks = w.
Proof. induction ks as [|k ks IH]; cbn [foldl setV]; [reflexivity | exact IH]. Qed.

Lemma getAll_unfold w :
  getAll w
  = let '(labs, w1) :=
      (let '(cloned, w1) := cloneDeep (settingsCache_get_labs w) w in
       if truthyV cloned then (cloned, w1)
       else let '(r, w2) := alloc ∅ w1 in (Obj r, w2)) in
    getAll_loops labs w1.
Proof.
  unfold getAll, getAll_loops.
  destruct (cloneDeep (settingsCache_get_labs w) w) as [cloned w1].
  destruct (truthyV cloned); [reflexivity|].
  destruct (alloc ∅ w1) as [r w2]. reflexivity.
Qed.

Lemma getAll_eq w :
  getAll w
  = match truthy_primitive w with
    | Some p => (Returned (Prim p), w)
    | None =>
        if reads_NODE_ENV w && unset (NODE_ENV w)
        then (Threw TypeError, put (fresh (dom (heap w))) (objAt CachedLabs w) w)
        else (Returned (Obj (Allocated (fresh (dom (heap w))))),
              put (fresh (dom (heap w))) (labsObject w) w)
    end.
Proof.
  rewrite getAll_unfold, getAll_start. unfold getAll_loops.
  destruct (truthy_primitive w) as [p|].
  - rewrite alpha_loop_prim by (apply Forall_forall; auto).
    rewrite ga_loop_prim. reflexivity.
  - rewrite alpha_loop_put.
    unfold reads_NODE_ENV, getProp, developerExperimentsOrTest, labsObject,
      developerExperiments, in_test.
    destruct (truthy (enableDeveloperExperiments w)); cbn [negb andb orb].
    + rewrite andb_false_r. cbn [andb].
      rewrite ga_loop_put. cbn [setV]. unfold setProp. rewrite updObj_put. reflexivity.
    + rewrite andb_true_r.
      destruct (NODE_ENV w) as [env|]; cbn [unset].
      * rewrite andb_false_r.
        rewrite ga_loop_put. cbn [setV]. unfold setProp. rewrite updObj_put. reflexivity.
      * rewrite andb_true_r.
        destruct (existsb _ ALPHA_FEATURES) eqn:He; [reflexivity|].
        rewrite ga_loop_put. cbn [setV]. unfold setProp. rewrite updObj_put.
        rewrite (alpha_loop_falsy false _ _ He). reflexivity.
Qed.

Lemma reads_NODE_ENV_object w : reads_NODE_ENV w = true -> truthy_primitive w = None.
Proof.
  unfold reads_NODE_ENV, truthy_primitive, getProp, objAt.
  destruct (labsSetting w) as [p|o]; [|reflexivity].
  intros H. apply andb_true_iff in H as [H _]. exfalso. revert H.
  assert (He : forall ks : list string,
             existsb (fun k => truthy (default JUndefined ((∅ : JsObject) !! k))) ks = false).
  { induction ks as [|k ks IH]; [reflexivity|].
    cbn [existsb]. rewrite lookup_empty. exact IH. }
  rewrite He. discriminate.
Qed.



Lemma getAll_object w :
  truthy_primitive w = None ->
  (reads_NODE_ENV w = true -> NODE_ENV w <> None) ->
  getAll w = (Returned (Obj (Allocated (fresh (dom (heap w))))),
              put (fresh (dom (heap w))) (labsObject w) w).
Proof.
  intros Hp Hn. rewrite getAll_eq, Hp.
  destruct (reads_NODE_ENV w); [|reflexivity].
  destruct (NODE_ENV w); [reflexivity|]. exfalso. apply Hn; reflexivity.
Qed.

(** When [getAll] returns an object it is a new one, with the properties
    [labsObject] describes. *)
Lemma getAll_returned w labs w' :
  getAll w = (Returned (Obj labs), w') ->
  labs = Allocated (fresh (dom (heap w)))
  /\ w' = put (fresh (dom (heap w))) (labsObject w) w
  /\ objAt labs w' = labsObject w.
Proof.
  rewrite getAll_eq.
  destruct (truthy_primitive w); [discriminate|].
  destruct (reads_NODE_ENV w && unset (NODE_ENV w)); [discriminate|].
  intros [= <- <-]. split; [reflexivity|]. split; [reflexivity|]. apply objAt_put.
Qed.

Lemma isSet_unfold flag w :
  isSet flag w
  = (match (getAll w).1 with
     | Returned labsConfig =>
         Returned (truthyV labsConfig
                   && truthy (getV labsConfig flag (getAll w).2)
                   && strict_eq_true (getV labsConfig flag (getAll w).2))
     | Threw e => Threw e
     end, (getAll w).2).
Proof. unfold isSet. destruct (getAll w) as [[labs|e] w1]; reflexivity. Qed.

Lemma truthy_and_true v : truthy v && strict_eq_true v = strict_eq_true v.
Proof. destruct v as [| |[|]|n|s|?|?]; cbn; try reflexivity; apply andb_false_r. Qed.

Lemma isSet_eq flag w :
  isSet flag w
  = match truthy_primitive w with
    | Some p => (Returned false, w)
    | None =>
        if reads_NODE_ENV w && unset (NODE_ENV w)
        then (Threw TypeError, put (fresh (dom (heap w))) (objAt CachedLabs w) w)
        else (Returned (strict_eq_true (default JUndefined (labsObject w !! flag))),
              put (fresh (dom (heap w))) (labsObject w) w)
    end.
Proof.
  rewrite isSet_unfold, getAll_eq.
  destruct (truthy_primitive w) as [p|]; cbn [fst snd].
  - cbn [getV]. rewrite primProp_not_true, !andb_false_r. reflexivity.
  - destruct (reads_NODE_ENV w && unset (NODE_ENV w)); cbn [fst snd]; [reflexivity|].
    cbn [truthyV getV andb]. rewrite getProp_put, truthy_and_true. reflexivity.
Qed.

Lemma isSet_world flag w : (isSet flag w).2 = (getAll w).2.
Proof. rewrite isSet_unfold. reflexivity. Qed.

(** What the two loops leave under a key. *)
Lemma alpha_loop_lookup ks : forall (o : JsObject) k,
  foldl (alphaStep false) o ks !! k
  = if decide (k ∈ ks)
    then (if truthy (default JUndefined (o !! k)) then None else o !! k)
    else o !! k.
Proof.
  induction ks as [|a ks IH]; intros o k; cbn [foldl].
  - destruct (decide (k ∈ [])) as [Hin|_]; [|reflexivity].
    apply elem_of_nil in Hin. destruct Hin.
  - rewrite IH. unfold alphaStep. rewrite andb_true_r.
    destruct (decide (k = a)) as [->|Hne].
    + destruct (decide (a ∈ a :: ks)) as [_|Hn]; [|exfalso; apply Hn; left].
      destruct (truthy (default JUndefined (o !! a))) eqn:Ht.
      * rewrite lookup_delete_eq. simpl. destruct (decide (a ∈ ks)); reflexivity.
      * rewrite Ht. destruct (decide (a ∈ ks)); reflexivity.
    + assert (Hk : forall o' : JsObject,
                 (if truthy (default JUndefined (o !! a)) then delete a o else o) !! k = o !! k).
      { intros _. destruct (truthy (default JUndefined (o !! a))); [|reflexivity].
        apply lookup_delete_ne. congruence. }
      rewrite (Hk o).
      destruct (decide (k ∈ ks)) as [Hin|Hnin];
        destruct (decide (k ∈ a :: ks)) as [Hin'|Hnin']; try reflexivity.
      * exfalso. apply Hnin'. right. exact Hin.
      * exfalso. apply elem_of_cons in Hin' as [?|?]; [congruence|contradiction].
Qed.

Lemma ga_loop_lookup ks : forall (o : JsObject) k,
  foldl gaStep o ks !! k
  = if decide (k ∈ ks) then Some (JBool true) else o !! k.
Proof.
  induction ks as [|a ks IH]; intros o k; cbn [foldl].
  - destruct (decide (k ∈ [])) as [Hin|_]; [|reflexivity].
    apply elem_of_nil in Hin. destruct Hin.
  - rewrite IH. unfold gaStep.
    destruct (decide (k ∈ ks)) as [Hin|Hnin].
    + destruct (decide (k ∈ a :: ks)) as [_|Hn]; [reflexivity|].
      exfalso. apply Hn. right. exact Hin.
    + destruct (decide (k = a)) as [->|Hne].
      * rewrite lookup_insert_eq.
        destruct (decide (a ∈ a :: ks)) as [_|Hn]; [reflexivity|].
        exfalso. apply Hn. left.
      * rewrite lookup_insert_ne by congruence.
        destruct (decide (k ∈ a :: ks)) as [Hin'|_]; [|reflexivity].
        exfalso. apply elem_of_cons in Hin' as [?|?]; [congruence|contradiction].
Qed.

Lemma labsObject_lookup w k :
  labsObject w !! k
  = if decide (k = "members")
    then Some (JBool (strict_neq_str (membersSignupAccess w) "none"))
    else if decide (k ∈ GA_FEATURES) then Some (JBool true)
    else if hidden w k then None
    else objAt CachedLabs w !! k.
Proof.
  unfold labsObject.
  destruct (decide (k = "members")) as [->|Hm].
  { apply lookup_insert_eq. }
  rewrite lookup_insert_ne by congruence.
  rewrite ga_loop_lookup.
  destruct (decide (k ∈ GA_FEATURES)); [reflexivity|].
  unfold hidden, getProp.
  destruct (developerExperiments w).
  - rewrite alpha_loop_dev, andb_false_r. reflexivity.
  - rewrite alpha_loop_lookup, andb_true_r.
    destruct (decide (k ∈ ALPHA_FEATURES)) as [Hin|Hnin].
    + rewrite (bool_decide_eq_true_2 _ Hin). reflexivity.
    + rewrite (bool_decide_eq_false_2 _ Hnin). reflexivity.
Qed.

Lemma getAll_frame w :
  labsSetting (getAll w).2 = labsSetting w
  /\ heap w ⊆ heap (getAll w).2
  /\ errorLog (getAll w).2 = errorLog w.
Proof.
  rewrite getAll_eq.
  assert (Hput : forall o,
             labsSetting (put (fresh (dom (heap w))) o w) = labsSetting w
             /\ heap w ⊆ heap (put (fresh (dom (heap w))) o w)
             /\ errorLog (put (fresh (dom (heap w))) o w) = errorLog w).
  { intros o. unfold put, set_heap; cbn.
    split; [reflexivity|]. split; [|reflexivity].
    apply insert_subseteq, not_elem_of_dom, is_fresh. }
  destruct (truthy_primitive w); cbn [fst snd].
  - split; [reflexivity|]. split; [|reflexivity]. reflexivity.
  - destruct (reads_NODE_ENV w && unset (NODE_ENV w)); cbn [fst snd]; apply Hput.
Qed.


Lemma isSet_frame flag w :
  labsSetting (isSet flag w).2 = labsSetting w
  /\ heap w ⊆ heap (isSet flag w).2
  /\ errorLog (isSet flag w).2 = errorLog w.
Proof. rewrite isSet_world. apply getAll_frame. Qed.

Lemma alpha_not_ga k : k ∈ ALPHA_FEATURES -> k <> "members" /\ k ∉ GA_FEATURES.
Proof.
  intros Hk.
  assert (Hall : Forall (fun a => a <> "members" /\ a ∉ GA_FEATURES) ALPHA_FEATURES).
  { apply (bool_decide_unpack _). vm_compute. exact I. }
  rewrite Forall_forall in Hall. apply Hall, Hk.
Qed.

Lemma labsObject_ga w k : k ∈ GA_FEATURES -> labsObject w !! k = Some (JBool true).
Proof.
  intros Hk. rewrite labsObject_lookup.
  destruct (decide (k = "members")) as [->|_].
  - apply list_elem_of_singleton in Hk. discriminate.
  - destruct (decide (k ∈ GA_FEATURES)); [reflexivity | contradiction].
Qed.


(** ** getAll and isSet *)

Example getAll_sample :
  exists labs w',
    getAll w_mixed = (Returned (Obj labs), w')
    /\ objAt labs w' !! "oauthLogin" = None
    /\ objAt labs w' !! "urlCache" = Some (JBool false)
    /\ objAt labs w' !! "activitypub" = Some (JBool true)
    /\ objAt labs w' !! "customThemeSettings" = Some (JBool true)
    /\ objAt labs w' !! "members" = Some (JBool false).
Proof. eexists _, _. split; [vm_compute; reflexivity|]. vm_compute. repeat split; reflexivity. Qed.

Example isSet_sample :
  (isSet "activitypub" w_mixed).1 = Returned true
  /\ (isSet "oauthLogin" w_mixed).1 = Returned false
  /\ (isSet "members" w_mixed).1 = Returned false.
Proof. vm_compute. repeat split; reflexivity. Qed.

(** A cached string is returned as it is, and no flag is set. *)
Example getAll_primitive_sample :
  getAll w_primitive = (Returned (Prim (PStr "abc")), w_primitive)
  /\ (isSet "customThemeSettings" w_primitive).1 = Returned false
  /\ (isSet "length" w_primitive).1 = Returned false.
Proof. vm_compute. repeat split; reflexivity. Qed.

(** With NODE_ENV unset, a stored alpha flag makes [getAll] throw. *)
Example getAll_unset_sample :
  (getAll (w_alpha (JBool false) None)).1 = Threw TypeError
  /\ (isSet "members" (w_alpha (JBool false) None)).1 = Threw TypeError
  /\ exists labs w', getAll (w_alpha (JBool true) None) = (Returned (Obj labs), w').
Proof.
  split; [vm_compute; reflexivity|]. split; [vm_compute; reflexivity|].
  eexists _, _. vm_compute. reflexivity.
Qed.







(** C7, as stated, fails: the value kept for a beta key is whatever the
    setting stores, here a string. *)
Lemma getAll_returns_non_boolean :
  ~ (forall w labs w' k v,
       getAll w = (Returned (Obj labs), w') ->
       objAt labs w' !! k = Some v -> is_boolean v = true).
Proof.
  intros H.
  assert (Hb : is_boolean (JStr "yes") = true).
  { eapply (H w_string_flag _ _ "activitypub");
      [apply getAll_object; [reflexivity | discriminate]|].
    rewrite objAt_put, labsObject_lookup. vm_compute. reflexivity. }
  discriminate Hb.
Qed.

(** C7 (amended): the values [getAll] returns under 'members' and under the
    GA keys are booleans; every other value, those kept for beta and alpha
    keys included, is the value the cached setting stores under that key,
    unchanged and of whatever type. *)
Theorem getAll_values w labs w' k v :
  getAll w = (Returned (Obj labs), w') ->
  objAt labs w' !! k = Some v ->
  (k = "members" \/ k ∈ GA_FEATURES -> is_boolean v = true)
  /\ (k <> "members" -> k ∉ GA_FEATURES -> objAt CachedLabs w !! k = Some v).
Proof.
  intros Hg. destruct (getAll_returned w labs w' Hg) as (_ & _ & ->).
  rewrite labsObject_lookup.
  destruct (decide (k = "members")) as [->|Hm].
  { intros [= <-]. split; [reflexivity | contradiction]. }
  destruct (decide (k ∈ GA_FEATURES)) as [Hga|Hga].
  { intros [= <-]. split; [reflexivity | contradiction]. }
  destruct (hidden w k); [discriminate|].
  intros Hv. split; [|intros _ _; exact Hv].
  intros [?|?]; contradiction.
Qed.

Lemma getAll_values_witness :
  objAt CachedLabs w_string_flag !! "activitypub" = Some (JStr "yes").
Proof.
  refine (proj2 (getAll_values w_string_flag (Allocated (fresh (dom (heap w_string_flag))))
                   (put (fresh (dom (heap w_string_flag))) (labsObject w_string_flag)
                        w_string_flag)
                   "activitypub" (JStr "yes") _ _) _ _).
  - vm_compute. reflexivity.
  - vm_compute. reflexivity.
  - discriminate.
  - intros Hin. apply list_elem_of_singleton in Hin. discriminate.
Defined.




(** C9: [getAll] leaves the object held by the settings cache as it was;
    what it returns is another object. *)
Theorem getAll_preserves_cache w :
  labsSetting (getAll w).2 = labsSetting w
  /\ objAt CachedLabs (getAll w).2 = objAt CachedLabs w
  /\ (getAll w).1 <> Returned (Obj CachedLabs).
Proof.
  destruct (getAll_frame w) as (Hc & _ & _).
  split; [exact Hc|]. split.
  - unfold objAt. rewrite Hc. reflexivity.
  - rewrite getAll_eq.
    destruct (truthy_primitive w); [discriminate|].
    destruct (reads_NODE_ENV w && unset (NODE_ENV w)); discriminate.
Qed.

(** ** enabledHelper and enabledMiddleware *)

Lemma or_string_drop_empty a d : or_string (drop_empty a) d = or_string a d.
Proof.
  destruct a as [s|]; [|reflexivity]. cbn.
  destruct (String.eqb s "") eqn:E; cbn; rewrite ?E; reflexivity.
Qed.

Lemma or_string_cases a d :
  or_string a d
  = match a with
    | Some s => if decide (s = "") then d else s
    | None => d
    end.
Proof.
  destruct a as [s|]; [|reflexivity]. cbn.
  destruct (String.eqb_spec s ""); destruct (decide (s = "")); congruence.
Qed.

Lemma enabledHelper_unfold {A} tpl options (callback : World -> A * World) w :
  enabledHelper tpl options callback w
  = match (isSet (flagKey options) w).1 with
    | Threw e => (Threw e, (isSet (flagKey options) w).2)
    | Returned true =>
        (Returned (CallbackValue (callback (isSet (flagKey options) w).2).1),
         (callback (isSet (flagKey options) w).2).2)
    | Returned false =>
        match tpl (or_string (errorMessage options) (msg_errorMessage messages))
                  [("helperName", JStr (helperName options))],
              tpl (or_string (errorContext options) (msg_errorContext messages))
                  [("helperName", JStr (helperName options));
                   ("flagName", JStr (flagName options))],
              tpl (or_string (errorHelp options) (msg_errorHelp messages))
                  [("url", opt_val (helpUrl options))] with
        | Returned m, Returned c, Returned h =>
            let text := "<script>console.error(" +:+ dquote
                        +:+ (m +:+ " " +:+ c +:+ " " +:+ h)
                        +:+ dquote +:+ ");</script>" in
            (Returned (if truthy (async options)
                       then PromiseResolved (mkSafeString text)
                       else ErrorString (mkSafeString text)),
             set_errorLog
               (fun log => log ++ [DisabledFeatureError
                                     {| message := m; context := c; help := h |}])
               (isSet (flagKey options) w).2)
        | Threw e, _, _ => (Threw e, (isSet (flagKey options) w).2)
        | Returned _, Threw e, _ => (Threw e, (isSet (flagKey options) w).2)
        | Returned _, Returned _, Threw e => (Threw e, (isSet (flagKey options) w).2)
        end
    end.
Proof.
  unfold enabledHelper.
  destruct (isSet (flagKey options) w) as [[[|]|e] w1]; cbn [fst snd]; [| |reflexivity].
  - destruct (callback w1). reflexivity.
  - destruct (tpl _ [("helperName", JStr (helperName options))]) as [m|e]; [|reflexivity].
    destruct (tpl _ [("helperName", JStr (helperName options)); _]) as [c|e]; [|reflexivity].
    destruct (tpl _ [("url", _)]) as [h|e]; [|reflexivity].
    cbn [values message context help String.concat].
    destruct (truthy (async options)); reflexivity.
Qed.

(** With the standard templates the logged error and the returned script
    carry the filled-in texts; a replacement template that names a
    placeholder the helper does not pass makes the helper throw. *)
Example enabledHelper_sample :
  (enabledHelper sample_tpl (matchHelperOptions "matchHelper")
                 (fun w => (JStr "rendered", w)) w_ga_off).1
  = Returned (PromiseResolved (mkSafeString
      ("<script>console.error(" +:+ dquote
       +:+ "The {{match}} helper is not available. "
       +:+ "The Match helper flag must be enabled in labs if you wish to use the {{match}} helper. "
       +:+ "See https://ghost.org/docs/themes/"
       +:+ dquote +:+ ");</script>")))
  /\ (enabledHelper sample_tpl (badMessageOptions "matchHelper")
                    (fun w => (JStr "rendered", w)) w_ga_off).1
     = Threw (ReferenceError "flag").
Proof. split; vm_compute; reflexivity. Qed.

(** C3, as stated, fails: when a replacement template names a placeholder
    that the helper does not pass to [tpl], [isSet] is false but nothing is
    logged and no error string is returned: the helper throws. *)
Lemma enabledHelper_throws_on_unknown_placeholder :
  ~ (forall options (callback : World -> JsVal * World) w,
       (isSet (flagKey options) w).1 = Returned false ->
       exists s d,
         (enabledHelper sample_tpl options callback w).1
         = Returned (if truthy (async options) then PromiseResolved s else ErrorString s)
         /\ errorLog (enabledHelper sample_tpl options callback w).2
            = errorLog w ++ [DisabledFeatureError d]).
Proof.
  intros H.
  destruct (H (badMessageOptions "matchHelper") (fun w => (JStr "rendered", w)) w_ga_off)
    as (s & d & Hres & _); [vm_compute; reflexivity|].
  vm_compute in Hres. discriminate Hres.
Qed.

(** C3 (amended): [enabledHelper] returns what the callback returns exactly
    when [isSet(options.flagKey)] returns true.  When it returns false the
    callback is not run and the three templates are filled in: the message
    from [options.errorMessage] or 'The \{\{{helperName}\}\} helper is not
    available.' with the helper name, the context from
    [options.errorContext] or the standard context with the helper name and
    the flag name, the help from [options.errorHelp] or 'See {url}' with
    [options.helpUrl], an empty replacement counting as none.  If all three
    calls of [tpl] return, one DisabledFeatureError with the three texts is
    logged and the SafeString
    [<script>console.error("message context help");</script>] is returned,
    inside a resolved promise if and only if [options.async] is truthy.  If
    a call of [tpl] throws, or [isSet] throws, the helper throws the same
    error and logs nothing. *)
Theorem enabledHelper_spec {A : Type} (tpl : string -> list (string * JsVal) -> Outcome string)
    (options : HelperOptions) (callback : World -> A * World) (w : World) :
  let template (replacement : option string) (standard : string) :=
    match replacement with
    | Some s => if decide (s = "") then standard else s
    | None => standard
    end in
  let url :=
    match helpUrl options with
    | Some u => JStr u
    | None => JUndefined
    end in
  let message :=
    tpl (template (errorMessage options)
                  "The \{\{{helperName}\}\} helper is not available.")
        [("helperName", JStr (helperName options))] in
  let context :=
    tpl (template (errorContext options)
                  "The {flagName} flag must be enabled in labs if you wish to use the \{\{{helperName}\}\} helper.")
        [("helperName", JStr (helperName options));
         ("flagName", JStr (flagName options))] in
  let help :=
    tpl (template (errorHelp options) "See {url}") [("url", url)] in
  let quote := String (ascii_of_nat 34) EmptyString in
  let w1 := (isSet (flagKey options) w).2 in
  let result := enabledHelper tpl options callback w in
  errorLog w1 = errorLog w
  /\ (forall e, (isSet (flagKey options) w).1 = Threw e -> result = (Threw e, w1))
  /\ ((isSet (flagKey options) w).1 = Returned true ->
      result = (Returned (CallbackValue (callback w1).1), (callback w1).2))
  /\ ((isSet (flagKey options) w).1 = Returned false ->
      (forall a, result.1 <> Returned (CallbackValue a))
      /\ (forall m c h,
            message = Returned m -> context = Returned c -> help = Returned h ->
            let text := "<script>console.error(" +:+ quote
                        +:+ (m +:+ " " +:+ c +:+ " " +:+ h)
                        +:+ quote +:+ ");</script>" in
            result
            = (Returned (if truthy (async options)
                         then PromiseResolved (mkSafeString text)
                         else ErrorString (mkSafeString text)),
               set_errorLog
                 (fun _ => errorLog w ++ [DisabledFeatureError
                                            {| message := m; context := c; help := h |}])
                 w1))
      /\ (forall e, message = Threw e -> result = (Threw e, w1))
      /\ (forall m e, message = Returned m -> context = Threw e -> result = (Threw e, w1))
      /\ (forall m c e,
            message = Returned m -> context = Returned c -> help = Threw e ->
            result = (Threw e, w1))).
Proof.
  intros template url message context help quote w1 result.
  destruct (isSet_frame (flagKey options) w) as (_ & _ & Hlog).
  split; [exact Hlog|].
  subst result. rewrite enabledHelper_unfold. fold w1.
  rewrite !or_string_cases.
  change (opt_val (helpUrl options)) with url.
  fold (template (errorMessage options) (msg_errorMessage messages)).
  fold (template (errorContext options) (msg_errorContext messages)).
  fold (template (errorHelp options) (msg_errorHelp messages)).
  change (tpl (template (errorMessage options) (msg_errorMessage messages))
              [("helperName", JStr (helperName options))]) with message.
  change (tpl (template (errorContext options) (msg_errorContext messages))
              [("helperName", JStr (helperName options));
               ("flagName", JStr (flagName options))]) with context.
  change (tpl (template (errorHelp options) (msg_errorHelp messages)) [("url", url)])
    with help.
  split; [intros e ->; reflexivity|].
  split; [intros ->; reflexivity|].
  intros ->. split; [|split; [|split; [|split]]].
  - intros a. destruct message; [|discriminate].
    destruct context; [|discriminate]. destruct help; [|discriminate].
    cbv zeta. cbn [fst]. destruct (truthy (async options)); discriminate.
  - intros m c h -> -> ->. cbv zeta. unfold set_errorLog.
    fold w1 in Hlog. rewrite Hlog. reflexivity.
  - intros e ->. reflexivity.
  - intros m e -> ->. reflexivity.
  - intros m c e -> -> ->. reflexivity.
Qed.

Lemma enabledHelper_spec_witness :
  enabledHelper plain_tpl (matchHelperOptions "customThemeSettings")
                (fun w => (JStr "rendered", w)) w_ga_off
  = (Returned (CallbackValue (JStr "rendered")),
     (isSet "customThemeSettings" w_ga_off).2)
  /\ enabledHelper sample_tpl (badMessageOptions "matchHelper")
                   (fun w => (JStr "rendered", w)) w_ga_off
     = (Threw (ReferenceError "flag"), (isSet "matchHelper" w_ga_off).2).
Proof.
  split.
  - apply (proj1 (proj2 (proj2 (enabledHelper_spec plain_tpl
                    (matchHelperOptions "customThemeSettings")
                    (fun w => (JStr "rendered", w)) w_ga_off)))).
    vm_compute. reflexivity.
  - refine (proj1 (proj2 (proj2 (proj2 (proj2 (proj2 (enabledHelper_spec sample_tpl
              (badMessageOptions "matchHelper")
              (fun w => (JStr "rendered", w)) w_ga_off))) _))) _ _).
    + vm_compute. reflexivity.
    + vm_compute. reflexivity.
Defined.

Lemma enabledMiddleware_unfold {A} flag req res
    (next : option GhostError -> World -> A * World) w :
  enabledMiddleware flag req res next w
  = match (isSet flag w).1 with
    | Returned set =>
        let r := next (if set then None else Some NotFoundError) (isSet flag w).2 in
        (Returned r.1, r.2)
    | Threw e => (Threw e, (isSet flag w).2)
    end.
Proof.
  unfold enabledMiddleware.
  destruct (isSet flag w) as [[[|]|e] w1]; cbn [fst snd]; [| |reflexivity].
  - destruct (next None w1). reflexivity.
  - destruct (next (Some NotFoundError) w1). reflexivity.
Qed.



(** ** Further properties of the labs module *)

Lemma put_inputs l o w :
  truthy_primitive (put l o w) = truthy_primitive w
  /\ reads_NODE_ENV (put l o w) = reads_NODE_ENV w
  /\ NODE_ENV (put l o w) = NODE_ENV w
  /\ labsObject (put l o w) = labsObject w
  /\ objAt CachedLabs (put l o w) = objAt CachedLabs w.
Proof. unfold labsObject. repeat split. Qed.

Lemma objAt_put_ne l l' o w :
  l <> l' -> objAt (Allocated l) (put l' o w) = objAt (Allocated l) w.
Proof.
  intros Hne. unfold objAt, put, set_heap; cbn [heap].
  rewrite lookup_insert_ne by congruence. reflexivity.
Qed.

Lemma fresh_put_ne l o w : l ∈ dom (heap (put l o w)).
Proof.
  apply elem_of_dom. unfold put, set_heap; cbn [heap].
  rewrite lookup_insert_eq. eauto.
Qed.

(** X1: [isSet(flag)] in terms of the cache.  When the cache holds a truthy
    primitive no flag is set.  When [getAll] throws, so does [isSet].
    Otherwise: for 'members' it tells whether 'members_signup_access'
    differs from 'none'; for a GA key it is true; for any other key it is
    true exactly when the setting stores the boolean [true] under the key
    and the key is not a hidden alpha key. *)
Theorem isSet_characterised w k :
  (isSet k w).1
  = match truthy_primitive w with
    | Some _ => Returned false
    | None =>
        if reads_NODE_ENV w && unset (NODE_ENV w) then Threw TypeError
        else Returned
               (if decide (k = "members")
                then strict_neq_str (membersSignupAccess w) "none"
                else if decide (k ∈ GA_FEATURES) then true
                else negb (hidden w k) && strict_eq_true (getProp CachedLabs k w))
    end.
Proof.
  rewrite isSet_eq.
  destruct (truthy_primitive w); [reflexivity|].
  destruct (reads_NODE_ENV w && unset (NODE_ENV w)); [reflexivity|].
  cbn [fst]. f_equal. rewrite labsObject_lookup.
  destruct (decide (k = "members")).
  { cbn. destruct (strict_neq_str (membersSignupAccess w) "none"); reflexivity. }
  destruct (decide (k ∈ GA_FEATURES)); [reflexivity|].
  destruct (hidden w k); reflexivity.
Qed.

Lemma isSet_alpha_off w k :
  k ∈ ALPHA_FEATURES ->
  developerExperiments w = false ->
  (isSet k w).1
  = if reads_NODE_ENV w && unset (NODE_ENV w) then Threw TypeError else Returned false.
Proof.
  intros Hk Hdev. destruct (alpha_not_ga k Hk) as [Hm Hga].
  rewrite isSet_eq.
  destruct (truthy_primitive w) eqn:Hp.
  { destruct (reads_NODE_ENV w) eqn:Hr; [|reflexivity].
    rewrite (reads_NODE_ENV_object w Hr) in Hp. discriminate Hp. }
  destruct (reads_NODE_ENV w && unset (NODE_ENV w)); [reflexivity|].
  cbn [fst]. f_equal. rewrite labsObject_lookup.
  destruct (decide (k = "members")); [contradiction|].
  destruct (decide (k ∈ GA_FEATURES)); [contradiction|].
  unfold hidden. rewrite (bool_decide_eq_true_2 _ Hk), Hdev, andb_true_r. cbn [andb].
  unfold getProp.
  destruct (objAt CachedLabs w !! k) as [[| |[|]|z|s|?|?]|]; cbn; try reflexivity.
  - destruct (negb (z =? 0)%Z); reflexivity.
  - destruct (negb (String.eqb s "")); reflexivity.
Qed.

(** X2: without developer experiments [isSet] never returns true for an
    alpha flag, whatever the setting stores: it returns false, or throws
    the TypeError of [getAll] when NODE_ENV is unset and a truthy alpha
    flag is stored. *)
Theorem alpha_needs_developer_experiments w k :
  k ∈ ALPHA_FEATURES ->
  developerExperiments w = false ->
  (isSet k w).1
  = if reads_NODE_ENV w && unset (NODE_ENV w) then Threw TypeError else Returned false.
Proof. apply isSet_alpha_off. Qed.

Lemma alpha_needs_developer_experiments_witness :
  (isSet "oauthLogin" (w_alpha (JBool false) (Some "production"))).1 = Returned false
  /\ (isSet "oauthLogin" (w_alpha (JBool false) None)).1 = Threw TypeError.
Proof.
  split.
  - apply (alpha_needs_developer_experiments (w_alpha (JBool false) (Some "production"))
             "oauthLogin"); [apply list_elem_of_here | reflexivity].
  - apply (alpha_needs_developer_experiments (w_alpha (JBool false) None) "oauthLogin");
      [apply list_elem_of_here | reflexivity].
Defined.

(** X3: an alpha key whose stored value is falsy is never deleted: whenever
    [getAll] returns an object, the key is in it as stored. *)
Theorem falsy_alpha_kept w labs w' k :
  k ∈ ALPHA_FEATURES ->
  truthy (getProp CachedLabs k w) = false ->
  getAll w = (Returned (Obj labs), w') ->
  objAt labs w' !! k = objAt CachedLabs w !! k.
Proof.
  intros Hk Ht Hg. destruct (alpha_not_ga k Hk) as [Hm Hga].
  destruct (getAll_returned w labs w' Hg) as (_ & _ & ->).
  rewrite labsObject_lookup.
  destruct (decide (k = "members")); [contradiction|].
  destruct (decide (k ∈ GA_FEATURES)); [contradiction|].
  unfold hidden. rewrite Ht, andb_false_r. reflexivity.
Qed.

Lemma falsy_alpha_kept_witness :
  objAt (Allocated (fresh (dom (heap w_alpha_off))))
        (put (fresh (dom (heap w_alpha_off))) (labsObject w_alpha_off) w_alpha_off)
    !! "urlCache"
  = Some (JBool false).
Proof.
  refine (eq_trans (falsy_alpha_kept w_alpha_off _ _ "urlCache" _ _ _) _);
    [ do 3 apply list_elem_of_further; apply list_elem_of_here
    | reflexivity | vm_compute; reflexivity | reflexivity ].
Defined.

Lemma getAll_again w labs1 w1 :
  getAll w = (Returned (Obj labs1), w1) ->
  forall f, exists labs2 w2,
    getAll (updObj labs1 f w1) = (Returned (Obj labs2), w2)
    /\ labs1 <> labs2
    /\ objAt labs2 w2 = objAt labs1 w1
    /\ objAt labs1 w2 = f (objAt labs1 w1).
Proof.
  intros Hg f.
  assert (Hin : truthy_primitive w = None
                /\ reads_NODE_ENV w && unset (NODE_ENV w) = false).
  { rewrite getAll_eq in Hg.
    destruct (truthy_primitive w); [discriminate|].
    destruct (reads_NODE_ENV w && unset (NODE_ENV w)); [discriminate|].
    split; reflexivity. }
  destruct Hin as [Hp Hn].
  destruct (getAll_returned w labs1 w1 Hg) as (-> & -> & Ho).
  rewrite updObj_put.
  destruct (put_inputs (fresh (dom (heap w))) (f (labsObject w)) w)
    as (Hp' & Hr' & He' & Hl' & _).
  eexists _, _. split.
  { rewrite getAll_eq, Hp', Hr', He', Hp, Hn. reflexivity. }
  assert (Hne : fresh (dom (heap w))
                <> fresh (dom (heap (put (fresh (dom (heap w))) (f (labsObject w)) w)))).
  { intros Heq.
    apply (is_fresh (dom (heap (put (fresh (dom (heap w))) (f (labsObject w)) w)))).
    rewrite <- Heq. apply fresh_put_ne. }
  split; [congruence|]. split.
  - rewrite !objAt_put. exact Hl'.
  - rewrite objAt_put_ne by exact Hne. rewrite !objAt_put. reflexivity.
Qed.

Lemma updObj_id r w : live r w -> updObj r (fun o => o) w = w.
Proof.
  destruct w as [c m e n h lg]. destruct r as [|l]; unfold updObj; cbn.
  - intros _. unfold set_labsSetting; cbn. destruct c; reflexivity.
  - intros Hl. unfold set_heap; cbn. f_equal.
    apply map_eq. intros i. destruct (decide (i = l)) as [->|Hne].
    + rewrite lookup_alter_eq. destruct (h !! l); reflexivity.
    + rewrite lookup_alter_ne by congruence. reflexivity.
Qed.

(** X4: when [getAll] has returned an object, the next call returns
    another object with the same properties, and leaves the first object
    as it was. *)
Theorem getAll_twice w labs1 w1 :
  getAll w = (Returned (Obj labs1), w1) ->
  exists labs2 w2,
    getAll w1 = (Returned (Obj labs2), w2)
    /\ labs1 <> labs2
    /\ objAt labs2 w2 = objAt labs1 w1
    /\ objAt labs1 w2 = objAt labs1 w1.
Proof.
  intros Hg. destruct (getAll_again w labs1 w1 Hg (fun o => o)) as (labs2 & w2 & H).
  rewrite updObj_id in H.
  - exists labs2, w2. exact H.
  - destruct (getAll_returned w labs1 w1 Hg) as (-> & -> & _). apply fresh_put_ne.
Qed.

Lemma getAll_twice_witness :
  exists labs2 w2,
    getAll (getAll w_mixed).2 = (Returned (Obj labs2), w2)
    /\ objAt labs2 w2 !! "activitypub" = Some (JBool true).
Proof.
  destruct (getAll_twice w_mixed (Allocated (fresh (dom (heap w_mixed))))
              (getAll w_mixed).2) as (labs2 & w2 & Hg & _ & Ho & _).
  { vm_compute. reflexivity. }
  exists labs2, w2. split; [exact Hg|]. rewrite Ho. vm_compute. reflexivity.
Defined.

(** X5: what the caller does to the object [getAll] returned has no effect
    on what the next [getAll] returns. *)
Theorem getAll_result_is_private w labs1 w1 (f : JsObject -> JsObject) :
  getAll w = (Returned (Obj labs1), w1) ->
  exists labs2 w2,
    getAll (updObj labs1 f w1) = (Returned (Obj labs2), w2)
    /\ objAt labs2 w2 = objAt labs1 w1.
Proof.
  intros Hg. destruct (getAll_again w labs1 w1 Hg f) as (labs2 & w2 & Hg2 & _ & Ho & _).
  exists labs2, w2. split; assumption.
Qed.

Lemma getAll_result_is_private_witness :
  exists labs2 w2,
    getAll (updObj (Allocated (fresh (dom (heap w_mixed))))
                   (insert "oauthLogin" (JBool true)) (getAll w_mixed).2)
    = (Returned (Obj labs2), w2)
    /\ objAt labs2 w2 !! "oauthLogin" = None.
Proof.
  destruct (getAll_result_is_private w_mixed (Allocated (fresh (dom (heap w_mixed))))
              (getAll w_mixed).2 (insert "oauthLogin" (JBool true)))
    as (labs2 & w2 & Hg & Ho).
  { vm_compute. reflexivity. }
  exists labs2, w2. split; [exact Hg|]. rewrite Ho. vm_compute. reflexivity.
Defined.

(** X6: asking for one flag does not change the answer for another. *)
Theorem isSet_independent w k1 k2 :
  (isSet k2 (isSet k1 w).2).1 = (isSet k2 w).1.
Proof.
  rewrite (isSet_eq k2 w), (isSet_eq k1 w).
  destruct (truthy_primitive w) as [p|] eqn:Hp; cbn [snd].
  { rewrite isSet_eq, Hp. reflexivity. }
  destruct (reads_NODE_ENV w && unset (NODE_ENV w)) eqn:Hn; cbn [fst snd];
    rewrite isSet_eq;
    match goal with
    | |- context [truthy_primitive (put ?l ?o w)] =>
        destruct (put_inputs l o w) as (-> & -> & -> & -> & _)
    end;
    rewrite Hp, Hn; reflexivity.
Qed.

(** X7: a helper or a route gated on a GA flag is on whenever the cache
    holds an object or a falsy value under ['labs'] and [getAll] does not
    throw: the helper returns what its callback returns, nothing has been
    logged when the callback starts, and the middleware calls [next()]
    without an error. *)
Theorem ga_gates_are_open {A B : Type} tpl options (callback : World -> A * World)
    req res (next : option GhostError -> World -> B * World) w :
  flagKey options ∈ GA_FEATURES ->
  truthy_primitive w = None ->
  (reads_NODE_ENV w = true -> NODE_ENV w <> None) ->
  let w1 := (isSet (flagKey options) w).2 in
  enabledHelper tpl options callback w
  = (Returned (CallbackValue (callback w1).1), (callback w1).2)
  /\ errorLog w1 = errorLog w
  /\ enabledMiddleware (flagKey options) req res next w
     = (Returned (next None w1).1, (next None w1).2).
Proof.
  intros Hk Hp Hn w1.
  assert (Hset : (isSet (flagKey options) w).1 = Returned true).
  { rewrite isSet_eq, Hp.
    destruct (reads_NODE_ENV w); cbn [andb].
    - destruct (NODE_ENV w); [|exfalso; apply Hn; reflexivity].
      cbn [unset fst]. rewrite (labsObject_ga w _ Hk). reflexivity.
    - cbn [fst]. rewrite (labsObject_ga w _ Hk). reflexivity. }
  destruct (isSet_frame (flagKey options) w) as (_ & _ & Hlog).
  split; [|split].
  - rewrite enabledHelper_unfold, Hset. reflexivity.
  - exact Hlog.
  - rewrite enabledMiddleware_unfold, Hset. reflexivity.
Qed.

Lemma ga_gates_are_open_witness :
  enabledMiddleware "customThemeSettings" CachedLabs CachedLabs
                    (fun arg w => (arg, w)) w_ga_off
  = (Returned None, (isSet "customThemeSettings" w_ga_off).2).
Proof.
  refine (proj2 (proj2 (ga_gates_are_open plain_tpl (matchHelperOptions "customThemeSettings")
                  (fun w => (JStr "rendered", w)) CachedLabs CachedLabs
                  (fun arg w => (arg, w)) w_ga_off (list_elem_of_here _ _) eq_refl _))).
  discriminate.
Defined.

(** X8: without developer experiments a helper or a route gated on an alpha
    flag is never on, even when the setting stores [true] for the flag: the
    helper never returns the value of its callback, and the middleware
    calls [next] with a NotFoundError, or throws the TypeError of [getAll]
    without calling [next] when NODE_ENV is unset and a truthy alpha flag
    is stored. *)
Theorem alpha_gates_are_closed {A B : Type} tpl options (callback : World -> A * World)
    req res (next : option GhostError -> World -> B * World) w :
  flagKey options ∈ ALPHA_FEATURES ->
  developerExperiments w = false ->
  let w1 := (isSet (flagKey options) w).2 in
  (forall a, (enabledHelper tpl options callback w).1 <> Returned (CallbackValue a))
  /\ enabledMiddleware (flagKey options) req res next w
     = if reads_NODE_ENV w && unset (NODE_ENV w)
       then (Threw TypeError, w1)
       else (Returned (next (Some NotFoundError) w1).1, (next (Some NotFoundError) w1).2).
Proof.
  intros Hk Hdev w1. pose proof (isSet_alpha_off w _ Hk Hdev) as Hset.
  split.
  - intros a. rewrite enabledHelper_unfold, Hset.
    destruct (reads_NODE_ENV w && unset (NODE_ENV w)); [discriminate|].
    destruct (tpl _ [("helperName", JStr (helperName options))]); [|discriminate].
    destruct (tpl _ [("helperName", JStr (helperName options)); _]); [|discriminate].
    destruct (tpl _ [("url", _)]); [|discriminate].
    cbv zeta. cbn [fst]. destruct (truthy (async options)); discriminate.
  - rewrite enabledMiddleware_unfold, Hset.
    destruct (reads_NODE_ENV w && unset (NODE_ENV w)); reflexivity.
Qed.

Lemma alpha_gates_are_closed_witness :
  enabledMiddleware "oauthLogin" CachedLabs CachedLabs
                    (fun arg w => (arg, w)) (w_alpha (JBool false) (Some "production"))
  = (Returned (Some NotFoundError),
     (isSet "oauthLogin" (w_alpha (JBool false) (Some "production"))).2).
Proof.
  apply (proj2 (alpha_gates_are_closed plain_tpl (matchHelperOptions "oauthLogin")
                  (fun w => (JStr "rendered", w)) CachedLabs CachedLabs
                  (fun arg w => (arg, w)) (w_alpha (JBool false) (Some "production"))
                  (list_elem_of_here _ _) eq_refl)).
Defined.

(** X9: a replacement message, context or help text that is the empty
    string counts as not given: the helper behaves as it does without it. *)
Theorem empty_overrides_ignored {A : Type} tpl options
    (callback : World -> A * World) w :
  enabledHelper tpl (without_empty_overrides options) callback w
  = enabledHelper tpl options callback w.
Proof.
  unfold enabledHelper.
  change (flagKey (without_empty_overrides options)) with (flagKey options).
  change (async (without_empty_overrides options)) with (async options).
  change (helperName (without_empty_overrides options)) with (helperName options).
  change (flagName (without_empty_overrides options)) with (flagName options).
  change (helpUrl (without_empty_overrides options)) with (helpUrl options).
  change (errorMessage (without_empty_overrides options))
    with (drop_empty (errorMessage options)).
  change (errorContext (without_empty_overrides options))
    with (drop_empty (errorContext options)).
  change (errorHelp (without_empty_overrides options))
    with (drop_empty (errorHelp options)).
  rewrite !or_string_drop_empty. reflexivity.
Qed.

End LabsFacts.

(** * Properties of the e2e utilities *)

Module E2EFacts.

Import E2E.

(** ** Facts about traces *)

Lemma precedes_prefix {A} (a b : A) (l1 l2 : list A) :
  l1 `prefix_of` l2 -> precedes a b l2 -> precedes a b l1.
Proof.
  intros [k ->] H i Hi.
  destruct (H i) as (j & Hj & Ha).
  { rewrite lookup_app_l; [exact Hi | eapply lookup_lt_Some, Hi]. }
  exists j. split; [exact Hj|].
  rewrite lookup_app_l in Ha; [exact Ha|].
  apply lookup_lt_Some in Hi. lia.
Qed.

Lemma precedes_at {A} (n : nat) (a b : A) (l : list A) :
  l !! n = Some a -> b ∉ take n l -> a <> b -> precedes a b l.
Proof.
  intros Ha Hb Hne i Hi. exists n. split; [|exact Ha].
  destruct (lt_eq_lt_dec i n) as [[Hlt|Heq]|Hgt]; [| |exact Hgt].
  - exfalso. apply Hb. apply list_elem_of_lookup. exists i.
    rewrite lookup_take_lt by exact Hlt. exact Hi.
  - subst i. congruence.
Qed.

Lemma NoDup_prefix {A} (l1 l2 : list A) : l1 `prefix_of` l2 -> NoDup l2 -> NoDup l1.
Proof. intros [k ->] H. apply NoDup_app in H. tauto. Qed.

(** Case analysis on the answers of the environment, in program order. *)
Ltac crank env :=
  repeat match goal with
  | |- context [of_response (respond env ?h ?op)] =>
      destruct (respond env h op) as [?v|?e]; cbn
  end.

Lemma restart_run_checked env options h s :
  let run := restartModeGhostStart env options h s in
  let ks := kind <$> evs_of run in
  ks `prefix_of` restart_runbook (frontend options)
  /\ (res_of run = Done tt -> ks = restart_runbook (frontend options))
  /\ sequential (evs_of run) = true
  /\ stops_at_failure (evs_of run) = true.
Proof.
  unfold restartModeGhostStart. generalize (frontend options). intros f.
  unfold await_, call_, await, call, debug, emit, when, bind, ret, res_of, evs_of.
  destruct f; cbn.
  all: crank env.
  all: repeat split; try (eexists; reflexivity); try discriminate; try reflexivity.
Qed.

Lemma restart_runbook_NoDup f : NoDup (restart_runbook f).
Proof. destruct f; apply (bool_decide_unpack _); vm_compute; exact I. Qed.

Ltac runbook_precedes n :=
  apply (precedes_at n);
  [ reflexivity | apply (bool_decide_unpack _); vm_compute; exact I | discriminate ].

Lemma restart_runbook_order f :
  let rb := restart_runbook f in
  precedes (KSettled DbTeardown) (KStarted (KnexInit (Some 2%Z))) rb
  /\ precedes (KSettled (KnexInit (Some 2%Z))) (KStarted SettingsInit) rb
  /\ precedes (KSettled SettingsInit) (KCalled UrlUtilsReset) rb
  /\ precedes (KCalled UrlUtilsReset) (KCalled (UrlUtilsInit (negb f))) rb
  /\ precedes (KCalled (UrlUtilsInit (negb f))) (KStarted CustomRedirectsInit) rb
  /\ precedes (KSettled CustomRedirectsInit) (KCalled LimitsInit) rb.
Proof.
  destruct f; cbn.
  - repeat split;
      [ runbook_precedes 2 | runbook_precedes 4 | runbook_precedes 7
      | runbook_precedes 14 | runbook_precedes 15 | runbook_precedes 20 ].
  - repeat split;
      [ runbook_precedes 2 | runbook_precedes 4 | runbook_precedes 7
      | runbook_precedes 9 | runbook_precedes 10 | runbook_precedes 13 ].
Qed.

(** C5: the events of every run of [restartModeGhostStart] are an initial
    part of one fixed runbook, in which teardown settles before the fixture
    init starts, that settles before the settings service is re-initialised,
    and the URL service, custom redirects and limits follow; an awaited call
    has settled before anything else happens, nothing runs after a failed
    step and no step occurs twice. *)
Theorem restart_is_sequential env options h s :
  let run := restartModeGhostStart env options h s in
  let ks := kind <$> evs_of run in
  let f := frontend options in
  ks `prefix_of` restart_runbook f
  /\ (res_of run = Done tt -> ks = restart_runbook f)
  /\ sequential (evs_of run) = true
  /\ stops_at_failure (evs_of run) = true
  /\ NoDup ks
  /\ precedes (KSettled DbTeardown) (KStarted (KnexInit (Some 2%Z))) ks
  /\ precedes (KSettled (KnexInit (Some 2%Z))) (KStarted SettingsInit) ks
  /\ precedes (KSettled SettingsInit) (KCalled UrlUtilsReset) ks
  /\ precedes (KCalled UrlUtilsReset) (KCalled (UrlUtilsInit (negb f))) ks
  /\ precedes (KCalled (UrlUtilsInit (negb f))) (KStarted CustomRedirectsInit) ks
  /\ precedes (KSettled CustomRedirectsInit) (KCalled LimitsInit) ks.
Proof.
  intros run ks f.
  destruct (restart_run_checked env options h s) as (Hpre & Hdone & Hseq & Hstop).
  destruct (restart_runbook_order f) as (H1 & H2 & H3 & H4 & H5 & H6).
  fold run in Hpre, Hdone, Hseq, Hstop. fold ks in Hpre, Hdone. fold f in Hpre, Hdone.
  repeat split; try assumption.
  - eapply NoDup_prefix; [exact Hpre | apply restart_runbook_NoDup].
  - eapply precedes_prefix; [exact Hpre | exact H1].
  - eapply precedes_prefix; [exact Hpre | exact H2].
  - eapply precedes_prefix; [exact Hpre | exact H3].
  - eapply precedes_prefix; [exact Hpre | exact H4].
  - eapply precedes_prefix; [exact Hpre | exact H5].
  - eapply precedes_prefix; [exact Hpre | exact H6].
Qed.

Lemma restart_is_sequential_witness :
  kind <$> evs_of (restartModeGhostStart env_all_ok (merge_defaults env_all_ok no_options)
                     [] initial_state)
  = restart_runbook true.
Proof.
  apply (proj1 (proj2 (restart_is_sequential env_all_ok
           (merge_defaults env_all_ok no_options) [] initial_state))).
  reflexivity.
Defined.

(** ** Rules for composed computations *)

Section Rules.

Variable env : Env.

Lemma bind_unfold {A B} (m : M A) (k : A -> M B) h s :
  bind m k h s
  = match res_of (m h s) with
    | Done a =>
        let x := k a (h ++ evs_of (m h s)) (st_of (m h s)) in
        (res_of x, evs_of (m h s) ++ evs_of x, st_of x)
    | Thrown e => (Thrown e, evs_of (m h s), st_of (m h s))
    | Exited c => (Exited c, evs_of (m h s), st_of (m h s))
    end.
Proof.
  unfold bind, res_of, evs_of, st_of.
  destruct (m h s) as [[[a|e|c] evs] s1]; cbn; try reflexivity.
  destruct (k a (h ++ evs) s1) as [[r evs'] s2]. reflexivity.
Qed.

Lemma catch_unfold {A} (m : M A) (handler : Err -> M A) h s :
  catch m handler h s
  = match res_of (m h s) with
    | Thrown e =>
        let x := handler e (h ++ evs_of (m h s)) (st_of (m h s)) in
        (res_of x, evs_of (m h s) ++ evs_of x, st_of x)
    | _ => m h s
    end.
Proof.
  unfold catch, res_of, evs_of, st_of.
  destruct (m h s) as [[[a|e|c] evs] s1]; cbn; try reflexivity.
  destruct (handler e (h ++ evs) s1) as [[r evs'] s2]. reflexivity.
Qed.

(** *** quiet *)

Lemma quiet_bind {A B} q (m : M A) (k : A -> M B) :
  quiet q m -> (forall a, quiet q (k a)) -> quiet q (bind m k).
Proof.
  intros Hm Hk h s. rewrite bind_unfold. specialize (Hm h s).
  destruct (res_of (m h s)) as [a|e|c]; [|exact Hm|exact Hm].
  change (forallb q (evs_of (m h s)
                     ++ evs_of (k a (h ++ evs_of (m h s)) (st_of (m h s)))) = true).
  rewrite forallb_app, Hm. apply Hk.
Qed.

Lemma quiet_catch {A} q (m : M A) handler :
  quiet q m -> (forall e, quiet q (handler e)) -> quiet q (catch m handler).
Proof.
  intros Hm Hk h s. rewrite catch_unfold. specialize (Hm h s).
  destruct (res_of (m h s)) as [a|e|c]; [exact Hm| |exact Hm].
  change (forallb q (evs_of (m h s)
                     ++ evs_of (handler e (h ++ evs_of (m h s)) (st_of (m h s)))) = true).
  rewrite forallb_app, Hm. apply Hk.
Qed.

Lemma quiet_silent {A} q (m : M A) :
  (forall h s, evs_of (m h s) = []) -> quiet q m.
Proof. intros H h s. rewrite H. reflexivity. Qed.

Lemma quiet_emit q ev : q ev = true -> quiet q (emit ev).
Proof. intros H h s. cbn. rewrite H. reflexivity. Qed.

Lemma quiet_process_exit {A} q c : q (ProcessExit c) = true -> quiet q (@process_exit A c).
Proof. intros H h s. cbn. rewrite H. reflexivity. Qed.

Lemma quiet_call q op : (forall r, q (Called op r) = true) -> quiet q (call env op).
Proof. intros H h s. cbn. rewrite H. reflexivity. Qed.

Lemma quiet_await q op :
  q (Started op) = true -> (forall r, q (Settled op r) = true) -> quiet q (await env op).
Proof. intros H1 H2 h s. cbn. rewrite H1, H2. reflexivity. Qed.

Lemma quiet_start q op : q (Started op) = true -> quiet q (start env op).
Proof. intros H h s. cbn. rewrite H. reflexivity. Qed.

Lemma quiet_bind_start {B} q op (k : Promise -> M B) :
  q (Started op) = true -> (forall r, quiet q (k (op, r))) ->
  quiet q (bind (start env op) k).
Proof.
  intros H1 Hk h s. rewrite bind_unfold.
  change (forallb q ([Started op]
            ++ evs_of (k (op, respond env h op) (h ++ [Started op]) s)) = true).
  rewrite forallb_app, Hk. cbn. rewrite H1. reflexivity.
Qed.

Lemma quiet_when q b m : quiet q m -> quiet q (when b m).
Proof. intros H. destruct b; [exact H | apply quiet_silent; reflexivity]. Qed.

Lemma quiet_for_each {A} q (l : list A) body :
  (forall x, quiet q (body x)) -> quiet q (for_each l body).
Proof.
  intros H. induction l as [|x l IH]; cbn [for_each].
  - apply quiet_silent; reflexivity.
  - apply quiet_bind; [apply H | intros _; exact IH].
Qed.

Lemma bind_silent {A B} (m : M A) (k : A -> M B) a h s s' :
  m h s = (Done a, [], s') -> bind m k h s = k a h s'.
Proof.
  intros H. unfold bind. rewrite H, app_nil_r.
  destruct (k a h s') as [[r evs] s2]. reflexivity.
Qed.

(** *** Promises *)

Lemma pick_Some {A} i (l : list A) x rest :
  pick i l = Some (x, rest) ->
  x ∈ l /\ l ≡ₚ x :: rest /\ length l = S (length rest).
Proof.
  unfold pick. destruct (l !! (i mod length l)) as [y|] eqn:E; [|discriminate].
  intros [= <- <-]. split; [|split].
  - apply list_elem_of_lookup. eauto.
  - apply delete_Permutation, E.
  - pose proof (lookup_lt_Some _ _ _ E) as Hlt.
    rewrite length_delete by eauto. lia.
Qed.

Lemma pick_None {A} i (l : list A) : pick i l = None -> l = [].
Proof.
  unfold pick. destruct (l !! (i mod length l)) as [y|] eqn:E; [discriminate|].
  intros _. apply lookup_ge_None in E. destruct l as [|x l]; [reflexivity|].
  exfalso. pose proof (Nat.mod_upper_bound i (length (x :: l))) as Hlt.
  cbn [length] in *. lia.
Qed.

Lemma settle_all_step n pending h s :
  settle_all env (S n) pending h s
  = match pick (settles_next env h (fst <$> pending)) pending with
    | Some ((op, r), rest) =>
        bind (emit (Settled op r))
             (fun _ => match r with
                       | Ok _ => settle_all env n rest
                       | Fail e => throw e
                       end) h s
    | None => (Done tt, [], s)
    end.
Proof.
  cbn [settle_all]. rewrite (bind_silent _ _ h h s s) by reflexivity.
  destruct (pick _ pending) as [[[op r] rest]|]; reflexivity.
Qed.

Lemma resolution_of_mono ps ps' ev :
  (forall p, p ∈ ps -> p ∈ ps') -> resolution_of ps ev -> resolution_of ps' ev.
Proof. intros Hsub (op & v & -> & Hin). exists op, v. split; [reflexivity | auto]. Qed.

(** How waiting for the promises ends: all of them have resolved, or one
    has rejected after some others had resolved. *)
Lemma settle_all_spec n : forall pending h s,
  n = length pending ->
  let run := settle_all env n pending h s in
  st_of run = s
  /\ match res_of run with
     | Done _ =>
         Forall (fun p => exists v, snd p = Ok v) pending
         /\ Forall (resolution_of pending) (evs_of run)
     | Thrown e =>
         exists evs0 op,
           evs_of run = evs0 ++ [Settled op (Fail e)]
           /\ (op, Fail e) ∈ pending
           /\ Forall (resolution_of pending) evs0
     | Exited _ => False
     end.
Proof.
  induction n as [|n IH]; intros pending h s Hn; cbv zeta.
  - destruct pending; [|discriminate]. cbn. repeat constructor.
  - rewrite settle_all_step.
    destruct (pick _ pending) as [[[op r] rest]|] eqn:Hp.
    2:{ apply pick_None in Hp. subst pending. discriminate. }
    apply pick_Some in Hp as (Hin & Hperm & Hlen).
    assert (Hsub : forall p, p ∈ rest -> p ∈ pending).
    { intros p Hp. rewrite Hperm. right. exact Hp. }
    rewrite bind_unfold.
    change (res_of (emit (Settled op r) h s)) with (@Done unit tt).
    change (evs_of (emit (Settled op r) h s)) with [Settled op r].
    change (st_of (emit (Settled op r) h s)) with s.
    cbv beta iota zeta. destruct r as [v|e].
    + destruct (IH rest (h ++ [Settled op (Ok v)]) s) as [Hst Hres]; [lia|].
      cbv zeta in Hres.
      change (st_of (?a, ?b, ?c)) with c. change (res_of (?a, ?b, ?c)) with a.
      change (evs_of (?a, ?b, ?c)) with b.
      split; [exact Hst|].
      destruct (res_of (settle_all env n rest (h ++ [Settled op (Ok v)]) s)) as [[]|e|c].
      * destruct Hres as [Hok Hevs]. split.
        -- rewrite Hperm. constructor; [cbn; eauto | exact Hok].
        -- constructor; [exists op, v; auto|].
           eapply Forall_impl; [exact Hevs|]. intros ev. apply resolution_of_mono, Hsub.
      * destruct Hres as (evs0 & op' & Hevs & Hin' & Hok).
        exists (Settled op (Ok v) :: evs0), op'. rewrite Hevs. split; [reflexivity|].
        split; [apply Hsub, Hin'|].
        constructor; [exists op, v; auto|].
        eapply Forall_impl; [exact Hok|]. intros ev. apply resolution_of_mono, Hsub.
      * exact Hres.
    + cbn. split; [reflexivity|]. exists [], op. repeat split; [exact Hin | constructor].
Qed.

Lemma values_resolved (ps : list Promise) :
  Forall (fun p => exists v, snd p = Ok v) ps -> snd <$> ps = Ok <$> omap value_of ps.
Proof.
  induction 1 as [|[op r] ps [v Hv] _ IH]; [reflexivity|].
  cbn in Hv. subst r. cbn. rewrite IH. reflexivity.
Qed.

Lemma promise_all_spec ps h s :
  let run := promise_all env ps h s in
  st_of run = s
  /\ match res_of run with
     | Done vs =>
         snd <$> ps = Ok <$> vs
         /\ Forall (resolution_of ps) (evs_of run)
     | Thrown e =>
         exists evs0 op,
           evs_of run = evs0 ++ [Settled op (Fail e)]
           /\ (op, Fail e) ∈ ps
           /\ Forall (resolution_of ps) evs0
     | Exited _ => False
     end.
Proof.
  cbv zeta. unfold promise_all. rewrite bind_unfold.
  destruct (settle_all_spec (length ps) ps h s eq_refl) as [Hst Hres]. cbv zeta in Hres.
  destruct (res_of (settle_all env (length ps) ps h s)) as [[]|e|c].
  - cbn. rewrite app_nil_r. destruct Hres as [Hok Hevs].
    split; [exact Hst|]. split; [apply values_resolved, Hok | exact Hevs].
  - split; [exact Hst | exact Hres].
  - destruct Hres.
Qed.

Lemma quiet_settle_all q n : forall pending : list Promise,
  Forall (fun p : Promise => q (Settled (fst p) (snd p)) = true) pending ->
  quiet q (settle_all env n pending).
Proof.
  induction n as [|n IH]; intros pending Hq h s; [reflexivity|].
  rewrite settle_all_step.
  destruct (pick (settles_next env h (fst <$> pending)) pending)
    as [[[op r] rest]|] eqn:Hp; [|reflexivity].
  apply pick_Some in Hp as (Hin & Hperm & _).
  rewrite Hperm in Hq. apply Forall_cons in Hq as [Hq1 Hq2].
  revert h s. change (quiet q (bind (emit (Settled op r))
                                    (fun _ => match r with
                                              | Ok _ => settle_all env n rest
                                              | Fail e => throw e
                                              end))).
  apply quiet_bind; [apply quiet_emit, Hq1 | intros _].
  destruct r; [apply IH, Hq2 | apply quiet_silent; reflexivity].
Qed.

Lemma quiet_promise_all q ps :
  forallb (fun p => q (Settled (fst p) (snd p))) ps = true -> quiet q (promise_all env ps).
Proof.
  intros H. unfold promise_all.
  apply quiet_bind; [|intros _; apply quiet_silent; reflexivity].
  apply quiet_settle_all. apply Forall_forall. intros p Hp.
  rewrite forallb_forall in H. apply H, list_elem_of_In, Hp.
Qed.

(** *** no_throw *)

Lemma no_throw_bind {A B} (m : M A) (k : A -> M B) :
  no_throw m -> (forall a, no_throw (k a)) -> no_throw (bind m k).
Proof.
  intros Hm Hk h s e. rewrite bind_unfold. specialize (Hm h s).
  destruct (res_of (m h s)) as [a|e'|c]; [apply Hk | | discriminate].
  exfalso. apply (Hm e'). reflexivity.
Qed.

Lemma no_throw_catch {A} (m : M A) handler :
  (forall e, no_throw (handler e)) -> no_throw (catch m handler).
Proof.
  intros Hk h s e. rewrite catch_unfold.
  destruct (m h s) as [[[a|e'|c] evs] s1]; cbn; try discriminate.
  apply Hk.
Qed.

Lemma no_throw_simple {A} (m : M A) :
  (forall h s, exists a, res_of (m h s) = Done a) -> no_throw m.
Proof. intros H h s e. destruct (H h s) as [a ->]. discriminate. Qed.

Lemma no_throw_process_exit {A} c : no_throw (@process_exit A c).
Proof. intros h s e. discriminate. Qed.

(** *** stateless *)

Lemma stateless_bind {A B} (m : M A) (k : A -> M B) :
  stateless m -> (forall a, stateless (k a)) -> stateless (bind m k).
Proof.
  intros Hm Hk h s. rewrite bind_unfold. specialize (Hm h s).
  destruct (res_of (m h s)) as [a|e|c]; [|exact Hm|exact Hm].
  change (st_of (k a (h ++ evs_of (m h s)) (st_of (m h s))) = s).
  rewrite Hk. exact Hm.
Qed.

Lemma stateless_ret {A} (a : A) : stateless (ret a).
Proof. intros h s. reflexivity. Qed.

Lemma stateless_call op : stateless (call env op).
Proof. intros h s. reflexivity. Qed.

Lemma stateless_call_ op : stateless (call_ env op).
Proof. apply stateless_bind; [apply stateless_call | intros _; apply stateless_ret]. Qed.

Lemma stateless_when b m : stateless m -> stateless (when b m).
Proof. intros H. destruct b; [exact H | apply stateless_ret]. Qed.

(** *** fail_stop *)

Lemma fail_stop_bind {A B} (m : M A) (k : A -> M B) :
  fail_stop m -> (forall a, fail_stop (k a)) -> fail_stop (bind m k).
Proof.
  intros Hm Hk h s. rewrite bind_unfold. specialize (Hm h s).
  destruct (res_of (m h s)) as [a|e|c]; [|exact Hm|exact Hm].
  specialize (Hk a (h ++ evs_of (m h s)) (st_of (m h s))).
  set (x := k a (h ++ evs_of (m h s)) (st_of (m h s))) in *.
  change (propagated (res_of x) (evs_of (m h s) ++ evs_of x)).
  cbn in Hm.
  destruct (res_of x) as [b|e|c]; cbn in *.
  - rewrite forallb_app, Hm, Hk. reflexivity.
  - destruct Hk as (evs0 & ev & -> & Hev & Hb).
    exists (evs_of (m h s) ++ evs0), ev. split; [apply app_assoc|].
    split; [exact Hev|]. rewrite forallb_app, Hm, Hb. reflexivity.
  - rewrite forallb_app, Hm, Hk. reflexivity.
Qed.

Lemma fail_stop_benign {A} (m : M A) :
  quiet benign m -> no_throw m -> fail_stop m.
Proof.
  intros Hq Hn h s. specialize (Hq h s). specialize (Hn h s).
  destruct (res_of (m h s)) as [a|e|c]; cbn; try exact Hq.
  exfalso. apply (Hn e). reflexivity.
Qed.

Lemma fail_stop_silent {A} (m : M A) :
  (forall h s, exists a, res_of (m h s) = Done a) ->
  (forall h s, evs_of (m h s) = []) -> fail_stop m.
Proof.
  intros Hr He. apply fail_stop_benign;
    [apply quiet_silent, He | apply no_throw_simple, Hr].
Qed.

Lemma fail_stop_debug msg : fail_stop (debug msg).
Proof.
  apply fail_stop_benign; [apply quiet_emit; reflexivity|].
  apply no_throw_simple. intros h s. exists tt. reflexivity.
Qed.

Lemma fail_stop_call op : fail_stop (call env op).
Proof.
  intros h s. unfold call, res_of, evs_of; cbn.
  destruct (respond env h op) as [v|e]; cbn; [reflexivity|].
  exists [], (Called op (Fail e)). repeat split.
Qed.

Lemma fail_stop_await op : fail_stop (await env op).
Proof.
  intros h s. unfold await, res_of, evs_of; cbn.
  destruct (respond env h op) as [v|e]; cbn; [reflexivity|].
  exists [Started op], (Settled op (Fail e)). repeat split.
Qed.

Lemma fail_stop_ret {A} (a : A) : fail_stop (ret a).
Proof. apply fail_stop_silent; intros h s; [exists a|]; reflexivity. Qed.

Lemma fail_stop_get {A} (f : State -> A) : fail_stop (get f).
Proof. apply fail_stop_silent; intros h s; [exists (f s)|]; reflexivity. Qed.

Lemma fail_stop_modify f : fail_stop (modify f).
Proof. apply fail_stop_silent; intros h s; [exists tt|]; reflexivity. Qed.

Lemma fail_stop_Date_now : fail_stop (Date_now env).
Proof. apply fail_stop_silent; intros h s; [exists (now env h)|]; reflexivity. Qed.

Lemma fail_stop_call_ op : fail_stop (call_ env op).
Proof. apply fail_stop_bind; [apply fail_stop_call | intros _; apply fail_stop_ret]. Qed.

Lemma fail_stop_await_ op : fail_stop (await_ env op).
Proof. apply fail_stop_bind; [apply fail_stop_await | intros _; apply fail_stop_ret]. Qed.

Lemma fail_stop_when b m : fail_stop m -> fail_stop (when b m).
Proof. intros H. destruct b; [exact H | apply fail_stop_ret]. Qed.

End Rules.

Create HintDb fail_stop.
#[local] Hint Resolve fail_stop_debug fail_stop_call_ fail_stop_await_ fail_stop_call
  fail_stop_await fail_stop_ret fail_stop_get fail_stop_modify fail_stop_Date_now : fail_stop.

Ltac fail_stop_steps :=
  repeat first
    [ apply fail_stop_bind; [|intros ?]
    | apply fail_stop_when
    | solve [auto with fail_stop] ].

(** ** Fixture exposure and error propagation *)

Ltac suffix_witness :=
  first [ exists [] ; reflexivity
        | eexists [_] ; reflexivity
        | eexists [_;_] ; reflexivity
        | eexists [_;_;_] ; reflexivity
        | eexists [_;_;_;_] ; reflexivity
        | eexists [_;_;_;_;_] ; reflexivity
        | eexists [_;_;_;_;_;_] ; reflexivity
        | eexists [_;_;_;_;_;_;_] ; reflexivity
        | eexists [_;_;_;_;_;_;_;_] ; reflexivity ].

Ltac expose :=
  repeat (progress (unfold catch, bind, start, modify, emit, ret, throw, call,
                    console_error, process_exit; cbn)).

Lemma exposeFixtures_unfold env h s :
  let q1 := FindAll Role (Columns ["id"]) in
  let q2 := FindAll User (Columns ["id"; "email"]) in
  let q3 := FindAll Tag (Columns ["id"]) in
  let q4 := FindAll ApiKey (WithRelated "integration") in
  let h1 := h ++ [Started q1] in
  let h2 := h1 ++ [Started q2] in
  let h3 := h2 ++ [Started q3] in
  let h4 := h3 ++ [Started q4] in
  let x := expose_results env
             [ ("roles", (q1, respond env h q1));
               ("users", (q2, respond env h1 q2));
               ("tags", (q3, respond env h2 q3));
               ("apiKeys", (q4, respond env h3 q4)) ]
             h4 (set_existingData [] s) in
  exposeFixtures env h s
  = (res_of x, Started q1 :: Started q2 :: Started q3 :: Started q4 :: evs_of x, st_of x).
Proof.
  cbv zeta.
  set (x := expose_results env _ _ _).
  unfold exposeFixtures.
  unfold bind at 1 2 3 4 5. unfold start. cbv beta iota zeta delta [modify].
  rewrite app_nil_r.
  match goal with
  | |- context [catch ?m ?k ?hh ?ss] => change (catch m k hh ss) with x
  end.
  destruct x as [[r evs] s']. reflexivity.
Qed.

Lemma resolutions_silent ps evs :
  Forall (resolution_of ps) evs ->
  fixture_data evs = [] /\ serialised evs = []
  /\ forallb (fun ev => negb (failed ev)) evs = true.
Proof.
  induction 1 as [|ev evs (op & v & -> & _) _ (IH1 & IH2 & IH3)]; [repeat split|].
  unfold fixture_data, serialised in *. cbn. rewrite IH1, IH2, IH3. repeat split.
Qed.

Lemma fixture_data_app evs evs' :
  fixture_data (evs ++ evs') = fixture_data evs ++ fixture_data evs'.
Proof. apply omap_app. Qed.

Lemma serialised_app evs evs' :
  serialised (evs ++ evs') = serialised evs ++ serialised evs'.
Proof. apply omap_app. Qed.

Ltac split_last3 :=
  first [ eexists _, [], _; split; [reflexivity|]
        | eexists _, [_], _; split; [reflexivity|]
        | eexists _, [_;_], _; split; [reflexivity|]
        | eexists _, [_;_;_], _; split; [reflexivity|]
        | eexists _, [_;_;_;_], _; split; [reflexivity|] ].

(** The outcome of [exposeFixtures] once the four queries are under way.
    [ps] are their promises, in the order roles, users, tags, apiKeys. *)
Lemma expose_results_spec env (p1 p2 p3 p4 : Promise) h s :
  let run := expose_results env
               [("roles", p1); ("users", p2); ("tags", p3); ("apiKeys", p4)]
               h (set_existingData [] s) in
  let evs := evs_of run in
  st_of run = set_existingData (fixture_data evs) s
  /\ ((res_of run = Done tt
       /\ forallb (fun ev => negb (failed ev)) evs = true
       /\ fst <$> fixture_data evs = ["roles"; "users"; "tags"; "apiKeys"]
       /\ exists v1 v2 v3 v4,
            snd <$> [p1; p2; p3; p4] = [Ok v1; Ok v2; Ok v3; Ok v4]
            /\ serialised evs
               = [("roles", v1); ("users", v2); ("tags", v3); ("apiKeys", v4)])
      \/ (res_of run = Exited 1
          /\ exists e evs0 ev,
               evs = evs0 ++ [ev; ConsoleError "Unable to expose fixtures" e; ProcessExit 1]
               /\ failure_of ev = Some e
               /\ forallb (fun ev => negb (failed ev)) evs0 = true))
  /\ ((exists e0, Fail e0 ∈ snd <$> [p1; p2; p3; p4]) ->
      exists e, Fail e ∈ snd <$> [p1; p2; p3; p4]
                /\ res_of run = Exited 1
                /\ [ConsoleError "Unable to expose fixtures" e; ProcessExit 1]
                     `suffix_of` evs).
Proof.
  cbv zeta. unfold expose_results. cbn [List.map fst snd].
  rewrite catch_unfold, bind_unfold.
  destruct (promise_all_spec env [p1; p2; p3; p4] h (set_existingData [] s))
    as [HstP HresP].
  cbv zeta in HresP. revert HstP HresP.
  destruct (promise_all env [p1; p2; p3; p4] h (set_existingData [] s))
    as [[rP evsP] sP].
  cbn [res_of evs_of st_of fst snd]. intros -> HresP.
  destruct rP as [vs|e|c]; [| |destruct HresP].
  - destruct HresP as [Hvals Hres].
    destruct (resolutions_silent _ _ Hres) as (Hfd & Hser & Hok).
    destruct p1 as [o1 r1], p2 as [o2 r2], p3 as [o3 r3], p4 as [o4 r4].
    cbn in Hvals.
    destruct vs as [|v1 [|v2 [|v3 [|v4 [|v5 vs]]]]]; try discriminate Hvals.
    injection Hvals as -> -> -> ->.
    cbn [combine for_each].
    unfold bind, call, modify, ret. cbn.
    destruct (respond env _ (ToJSON "roles" v1)) as [j1|e1]; cbn.
    2:{ rewrite !fixture_data_app, Hfd. cbn. split; [reflexivity|]. split.
        - right. split; [reflexivity|].
          exists e1, evsP, (Called (ToJSON "roles" v1) (Fail e1)).
          rewrite <- !app_assoc. cbn. repeat split. exact Hok.
        - intros [e0 He0]. exfalso.
          repeat (apply elem_of_cons in He0 as [He0|He0]; [discriminate|]).
          apply elem_of_nil in He0. exact He0. }
    destruct (respond env _ (ToJSON "users" v2)) as [j2|e2]; cbn.
    2:{ rewrite !fixture_data_app, Hfd. cbn. split; [reflexivity|]. split.
        - right. split; [reflexivity|].
          exists e2, (evsP ++ [Called (ToJSON "roles" v1) (Ok j1)]),
                 (Called (ToJSON "users" v2) (Fail e2)).
          rewrite <- !app_assoc. cbn. repeat split.
          rewrite forallb_app, Hok. reflexivity.
        - intros [e0 He0]. exfalso.
          repeat (apply elem_of_cons in He0 as [He0|He0]; [discriminate|]).
          apply elem_of_nil in He0. exact He0. }
    destruct (respond env _ (ToJSON "tags" v3)) as [j3|e3]; cbn.
    2:{ rewrite !fixture_data_app, Hfd. cbn. split; [reflexivity|]. split.
        - right. split; [reflexivity|].
          exists e3, (evsP ++ [Called (ToJSON "roles" v1) (Ok j1);
                               Called (ToJSON "users" v2) (Ok j2)]),
                 (Called (ToJSON "tags" v3) (Fail e3)).
          rewrite <- !app_assoc. cbn. repeat split.
          rewrite forallb_app, Hok. reflexivity.
        - intros [e0 He0]. exfalso.
          repeat (apply elem_of_cons in He0 as [He0|He0]; [discriminate|]).
          apply elem_of_nil in He0. exact He0. }
    destruct (respond env _ (ToJSON "apiKeys" v4)) as [j4|e4]; cbn.
    2:{ rewrite !fixture_data_app, Hfd. cbn. split; [reflexivity|]. split.
        - right. split; [reflexivity|].
          exists e4, (evsP ++ [Called (ToJSON "roles" v1) (Ok j1);
                               Called (ToJSON "users" v2) (Ok j2);
                               Called (ToJSON "tags" v3) (Ok j3)]),
                 (Called (ToJSON "apiKeys" v4) (Fail e4)).
          rewrite <- !app_assoc. cbn. repeat split.
          rewrite forallb_app, Hok. reflexivity.
        - intros [e0 He0]. exfalso.
          repeat (apply elem_of_cons in He0 as [He0|He0]; [discriminate|]).
          apply elem_of_nil in He0. exact He0. }
    rewrite !fixture_data_app, !serialised_app, Hfd, Hser, !forallb_app, Hok. cbn.
    split; [reflexivity|]. split.
    + left. repeat split. exists v1, v2, v3, v4. split; reflexivity.
    + intros [e0 He0]. exfalso.
      repeat (apply elem_of_cons in He0 as [He0|He0]; [discriminate|]).
      apply elem_of_nil in He0. exact He0.
  - destruct HresP as (evs0 & op & -> & Hin & Hres).
    destruct (resolutions_silent _ _ Hres) as (Hfd & Hser & Hok).
    unfold bind, console_error, emit, process_exit. cbn.
    rewrite !fixture_data_app, Hfd. cbn. split; [reflexivity|]. split.
    + right. split; [reflexivity|].
      exists e, evs0, (Settled op (Fail e)).
      rewrite <- !app_assoc. cbn. repeat split. exact Hok.
    + intros _. exists e. split.
      * exact (list_elem_of_fmap_2 snd _ _ Hin).
      * split; [reflexivity|].
        exists (evs0 ++ [Settled op (Fail e)]). reflexivity.
Qed.

Lemma exposeFixtures_rejection env h s :
  (exists e0, Fail e0 ∈ fixtureAnswers env h) ->
  exists e, Fail e ∈ fixtureAnswers env h
            /\ res_of (exposeFixtures env h s) = Exited 1
            /\ [ConsoleError "Unable to expose fixtures" e; ProcessExit 1]
                 `suffix_of` evs_of (exposeFixtures env h s).
Proof.
  intros He0. rewrite exposeFixtures_unfold. cbv zeta.
  match goal with
  | |- context [expose_results env [(_, ?p1); (_, ?p2); (_, ?p3); (_, ?p4)] ?hh _] =>
      pose proof (expose_results_spec env p1 p2 p3 p4 hh s) as Hspec
  end.
  cbv zeta in Hspec. destruct Hspec as (_ & _ & Hrej).
  destruct (Hrej He0) as (e & Hin & Hres & Hsuf).
  exists e. split; [exact Hin|]. split; [exact Hres|].
  do 4 apply suffix_cons_r. exact Hsuf.
Qed.

(** The tags query is rejected after the apiKeys query has resolved: the
    wait ends there, whatever the two other queries do. *)
Example exposeFixtures_tags_rejected :
  exposeFixtures env_tags_rejected [] initial_state
  = (Exited 1,
     [ Started (FindAll Role (Columns ["id"]));
       Started (FindAll User (Columns ["id"; "email"]));
       Started (FindAll Tag (Columns ["id"]));
       Started (FindAll ApiKey (WithRelated "integration"));
       Settled (FindAll ApiKey (WithRelated "integration")) (Ok VUndefined);
       Settled (FindAll Tag (Columns ["id"])) (Fail "ER_NO_SUCH_TABLE");
       ConsoleError "Unable to expose fixtures" "ER_NO_SUCH_TABLE";
       ProcessExit 1 ],
     initial_state).
Proof. vm_compute. reflexivity. Qed.

Lemma benign_fixture ev : is_fixture ev = true -> benign ev = true.
Proof. intros H. unfold benign. rewrite H. apply orb_true_r. Qed.

Lemma exposeFixtures_benign env : quiet benign (exposeFixtures env).
Proof.
  unfold exposeFixtures.
  repeat (apply quiet_bind_start; [reflexivity | intros ?]).
  apply quiet_bind; [apply quiet_silent; reflexivity | intros _].
  apply quiet_catch.
  - apply quiet_bind.
    + apply quiet_promise_all. cbn [List.map forallb fst snd].
      rewrite !benign_fixture by reflexivity. reflexivity.
    + intros results. apply quiet_for_each. intros [key result].
      apply quiet_bind; [|intros ?; apply quiet_silent; reflexivity].
      apply quiet_call. intros answer. apply benign_fixture. reflexivity.
  - intros err. apply quiet_bind; [apply quiet_emit; reflexivity | intros _].
    apply quiet_process_exit. reflexivity.
Qed.

Lemma exposeFixtures_no_throw env : no_throw (exposeFixtures env).
Proof.
  unfold exposeFixtures.
  repeat (apply no_throw_bind;
          [apply no_throw_simple; intros h s; eexists; reflexivity | intros ?]).
  apply no_throw_catch. intros err.
  apply no_throw_bind; [apply no_throw_simple; intros h s; eexists; reflexivity|].
  intros _. apply no_throw_process_exit.
Qed.

Lemma fail_stop_exposeFixtures env : fail_stop (exposeFixtures env).
Proof.
  apply fail_stop_benign; [apply exposeFixtures_benign | apply exposeFixtures_no_throw].
Qed.

Lemma fail_stop_prepareContentFolder env options :
  fail_stop (prepareContentFolder env options).
Proof. unfold prepareContentFolder. fail_stop_steps. Qed.

Lemma fail_stop_restart env options : fail_stop (restartModeGhostStart env options).
Proof. unfold restartModeGhostStart. fail_stop_steps. Qed.

Lemma fail_stop_stopGhost env : fail_stop (stopGhost env).
Proof. unfold stopGhost. fail_stop_steps. Qed.

Lemma fail_stop_fresh env options : fail_stop (freshModeGhostStart env options).
Proof.
  unfold freshModeGhostStart, bootGhost.
  apply fail_stop_bind; [destruct (forceStart options); apply fail_stop_debug | intros _].
  apply fail_stop_bind; [apply fail_stop_await_ | intros _].
  apply fail_stop_bind; [apply fail_stop_stopGhost | intros _].
  fail_stop_steps.
Qed.

Lemma fail_stop_startGhost env given : fail_stop (startGhost env given).
Proof.
  unfold startGhost.
  apply fail_stop_bind; [apply fail_stop_Date_now | intros startTime].
  apply fail_stop_bind; [apply fail_stop_debug | intros _].
  apply fail_stop_bind; [apply fail_stop_prepareContentFolder | intros _].
  apply fail_stop_bind; [apply fail_stop_get | intros server].
  apply fail_stop_bind.
  { destruct (running server && negb (forceStart (merge_defaults env given)));
      [apply fail_stop_restart | apply fail_stop_fresh]. }
  intros _.
  apply fail_stop_bind; [apply fail_stop_exposeFixtures | intros _].
  fail_stop_steps.
Qed.

Lemma forallb_lookup {A} (q : A -> bool) (l : list A) i x :
  forallb q l = true -> l !! i = Some x -> q x = true.
Proof.
  intros H Hi. rewrite forallb_forall in H. apply H.
  apply list_elem_of_In, list_elem_of_lookup. exists i. exact Hi.
Qed.

Lemma propagated_failure {A} (r : Result A) evs i ev e :
  propagated r evs ->
  evs !! i = Some ev -> failure_of ev = Some e -> is_fixture ev = false ->
  r = Thrown e /\ S i = length evs.
Proof.
  intros Hp Hi He Hf.
  assert (Hb : benign ev = false).
  { unfold benign, failed. rewrite He, Hf. reflexivity. }
  destruct r as [a|e'|c]; cbn in Hp.
  - rewrite (forallb_lookup _ _ _ _ Hp Hi) in Hb. discriminate.
  - destruct Hp as (evs0 & ev' & -> & He' & Hb0).
    destruct (lt_eq_lt_dec i (length evs0)) as [[Hlt|Heq]|Hgt].
    + rewrite lookup_app_l in Hi by exact Hlt.
      rewrite (forallb_lookup _ _ _ _ Hb0 Hi) in Hb. discriminate.
    + subst i. rewrite list_lookup_middle in Hi by reflexivity.
      injection Hi as <-. rewrite He in He'. injection He' as <-.
      split; [reflexivity|]. rewrite length_app. cbn. lia.
    + apply lookup_lt_Some in Hi. rewrite length_app in Hi. cbn in Hi. lia.
  - rewrite (forallb_lookup _ _ _ _ Hp Hi) in Hb. discriminate.
Qed.

(** C6: when one of the four fixture queries rejects, [exposeFixtures]
    catches the rejection, logs it with [console.error] and calls
    [process.exit(1)]; a failure of any other step of [startGhost] is the
    error [startGhost] throws to its caller, and nothing runs after it. *)
Theorem fixture_failure_exits_others_propagate env given h s :
  (forall h' s',
     (exists e0, Fail e0 ∈ fixtureAnswers env h') ->
     exists e, Fail e ∈ fixtureAnswers env h'
               /\ res_of (exposeFixtures env h' s') = Exited 1
               /\ [ConsoleError "Unable to expose fixtures" e; ProcessExit 1]
                    `suffix_of` evs_of (exposeFixtures env h' s'))
  /\ (forall i ev e,
        evs_of (startGhost env given h s) !! i = Some ev ->
        failure_of ev = Some e -> is_fixture ev = false ->
        res_of (startGhost env given h s) = Thrown e
        /\ S i = length (evs_of (startGhost env given h s))).
Proof.
  split.
  - intros h' s'. apply exposeFixtures_rejection.
  - intros i ev e. apply propagated_failure, fail_stop_startGhost.
Qed.

Lemma fixture_failure_exits_others_propagate_witness :
  (exists e, Fail e ∈ fixtureAnswers env_tags_rejected []
             /\ res_of (exposeFixtures env_tags_rejected [] initial_state) = Exited 1
             /\ [ConsoleError "Unable to expose fixtures" e; ProcessExit 1]
                  `suffix_of` evs_of (exposeFixtures env_tags_rejected [] initial_state))
  /\ res_of (startGhost env_db_down no_options [] initial_state) = Thrown "ECONNREFUSED".
Proof.
  split.
  - apply (proj1 (fixture_failure_exits_others_propagate
                    env_tags_rejected no_options [] initial_state) [] initial_state).
    exists "ER_NO_SUCH_TABLE". do 2 apply list_elem_of_further. apply list_elem_of_here.
  - apply (proj2 (fixture_failure_exits_others_propagate
                    env_db_down no_options [] initial_state)
                 14 (Settled (KnexReset true) (Fail "ECONNREFUSED")) "ECONNREFUSED");
      reflexivity.
Defined.

(** ** The two start paths *)

Lemma not_text_absent ts t evs :
  forallb (not_text ts) evs = true -> In t ts -> Debugged (Text t) ∉ evs.
Proof.
  intros H Ht Hin. apply list_elem_of_In in Hin.
  rewrite forallb_forall in H. specialize (H _ Hin). cbn in H.
  apply negb_true_iff in H.
  assert (Hex : existsb (String.eqb t) ts = true).
  { apply existsb_exists. exists t. split; [exact Ht | apply String.eqb_refl]. }
  congruence.
Qed.

Ltac quiet_steps env :=
  unfold call_, await_, debug, console_error;
  repeat first
    [ apply quiet_bind; [|intros ?]
    | apply quiet_when
    | apply (quiet_call env); intros ?; reflexivity
    | apply (quiet_await env); [reflexivity | intros ?; reflexivity]
    | apply quiet_emit; reflexivity
    | apply quiet_silent; reflexivity ].

Lemma prepare_quiet env options ts :
  quiet (not_text ts) (prepareContentFolder env options).
Proof. unfold prepareContentFolder. quiet_steps env. Qed.

Lemma prepare_stateless env options : stateless (prepareContentFolder env options).
Proof.
  unfold prepareContentFolder.
  repeat first [ apply stateless_call_
               | apply stateless_when
               | apply stateless_bind; [|intros ?] ].
Qed.

Lemma restart_quiet env options :
  quiet (not_text fresh_texts) (restartModeGhostStart env options).
Proof. unfold restartModeGhostStart. quiet_steps env. Qed.

Lemma fresh_quiet env options :
  quiet (not_text restart_texts) (freshModeGhostStart env options).
Proof.
  unfold freshModeGhostStart, stopGhost, bootGhost.
  apply quiet_bind; [destruct (forceStart options); quiet_steps env | intros _].
  quiet_steps env.
Qed.

Lemma exposeFixtures_quiet env ts : quiet (not_text ts) (exposeFixtures env).
Proof.
  unfold exposeFixtures.
  repeat (apply quiet_bind_start; [reflexivity | intros ?]).
  apply quiet_bind; [apply quiet_silent; reflexivity | intros _].
  apply quiet_catch.
  - apply quiet_bind.
    + apply quiet_promise_all. reflexivity.
    + intros results. apply quiet_for_each. intros [key result]. quiet_steps env.
  - intros err. apply quiet_bind; [apply quiet_emit; reflexivity | intros _].
    apply quiet_process_exit. reflexivity.
Qed.

Lemma finish_quiet env startTime ts : quiet (not_text ts) (finish env startTime).
Proof.
  unfold finish. apply quiet_bind; [apply exposeFixtures_quiet | intros _].
  quiet_steps env.
Qed.

Lemma evs_of_mk {A} (r : Result A) evs s : evs_of (r, evs, s) = evs.
Proof. reflexivity. Qed.

Lemma startGhost_events env given h s :
  let options := merge_defaults env given in
  let h1 := h ++ [Debugged (Text "Start Ghost")] in
  let prep := prepareContentFolder env options h1 s in
  let path := start_path env options s (h1 ++ evs_of prep) s in
  evs_of (startGhost env given h s)
  = Debugged (Text "Start Ghost") :: evs_of prep
    ++ match res_of prep with
       | Done _ =>
           evs_of path
           ++ match res_of path with
              | Done _ =>
                  evs_of (finish env (now env h) ((h1 ++ evs_of prep) ++ evs_of path)
                                 (st_of path))
              | _ => []
              end
       | _ => []
       end.
Proof.
  intros options h1 prep path.
  change (startGhost env given)
    with (bind (Date_now env) (fun startTime =>
            bind (debug (Text "Start Ghost")) (fun _ =>
              bind (prepareContentFolder env options) (fun _ =>
                bind (get ghostServer) (fun server =>
                  bind (if running server && negb (forceStart options)
                        then restartModeGhostStart env options
                        else freshModeGhostStart env options)
                       (fun _ => finish env startTime)))))).
  rewrite (bind_silent _ _ (now env h) h s s) by reflexivity.
  rewrite bind_unfold.
  change (res_of (debug (Text "Start Ghost") h s)) with (@Done unit tt).
  change (evs_of (debug (Text "Start Ghost") h s)) with [Debugged (Text "Start Ghost")].
  change (st_of (debug (Text "Start Ghost") h s)) with s.
  fold h1. cbv beta iota zeta. rewrite evs_of_mk. cbn [app]. f_equal.
  rewrite bind_unfold. fold prep.
  pose proof (prepare_stateless env options h1 s) as Hst. fold prep in Hst.
  destruct (res_of prep) as [[]|e|c];
    [|rewrite evs_of_mk, app_nil_r; reflexivity..].
  cbv beta iota zeta. rewrite evs_of_mk. f_equal.
  rewrite Hst.
  rewrite (bind_silent _ _ (ghostServer s) _ s s) by reflexivity.
  rewrite bind_unfold. fold (start_path env options s). fold path.
  destruct (res_of path) as [[]|e|c];
    cbv beta iota zeta; rewrite evs_of_mk, ?app_nil_r; reflexivity.
Qed.

Lemma restart_first env options h s :
  exists rest,
    evs_of (restartModeGhostStart env options h s)
    = Debugged (Text "Reload Mode") :: rest.
Proof.
  unfold restartModeGhostStart. rewrite bind_unfold.
  change (res_of (debug (Text "Reload Mode") h s)) with (@Done unit tt).
  cbv beta iota zeta. rewrite evs_of_mk. eexists. reflexivity.
Qed.

Lemma fresh_first env options h s :
  exists rest,
    evs_of (freshModeGhostStart env options h s)
    = Debugged (Text (if forceStart options
                      then "Forced Restart Mode" else "Fresh Start Mode")) :: rest.
Proof.
  unfold freshModeGhostStart. rewrite bind_unfold.
  destruct (forceStart options).
  - change (res_of (debug (Text "Forced Restart Mode") h s)) with (@Done unit tt).
    cbv beta iota zeta. rewrite evs_of_mk. eexists. reflexivity.
  - change (res_of (debug (Text "Fresh Start Mode") h s)) with (@Done unit tt).
    cbv beta iota zeta. rewrite evs_of_mk. eexists. reflexivity.
Qed.

Lemma path_marks env options s h' s' :
  let evs := evs_of (start_path env options s h' s') in
  let restart := running (ghostServer s) && negb (forceStart options) in
  (entered_restart evs <-> restart = true)
  /\ (entered_fresh evs <-> restart = false).
Proof.
  unfold start_path, entered_restart, entered_fresh.
  destruct (running (ghostServer s) && negb (forceStart options)); cbv zeta.
  - pose proof (restart_quiet env options h' s') as Hq.
    destruct (restart_first env options h' s') as [rest Hr].
    split; split; try discriminate; try reflexivity.
    + intros _. rewrite Hr. apply list_elem_of_here.
    + intros [Hin|Hin]; exfalso;
        (eapply (not_text_absent fresh_texts); [exact Hq | | exact Hin]);
        cbn; tauto.
  - pose proof (fresh_quiet env options h' s') as Hq.
    destruct (fresh_first env options h' s') as [rest Hr].
    split; split; try discriminate; try reflexivity.
    + intros Hin. exfalso.
      eapply (not_text_absent restart_texts); [exact Hq | | exact Hin].
      cbn; tauto.
    + intros _. rewrite Hr.
      destruct (forceStart options); [left | right]; apply list_elem_of_here.
Qed.

Lemma mark_in_events env given h s t :
  In t (restart_texts ++ fresh_texts) ->
  let options := merge_defaults env given in
  let h1 := h ++ [Debugged (Text "Start Ghost")] in
  let prep := prepareContentFolder env options h1 s in
  Debugged (Text t) ∈ evs_of (startGhost env given h s)
  <-> res_of prep = Done tt
      /\ Debugged (Text t) ∈ evs_of (start_path env options s (h1 ++ evs_of prep) s).
Proof.
  intros Ht options h1 prep. rewrite startGhost_events.
  fold options. fold h1. fold prep.
  set (path := start_path env options s (h1 ++ evs_of prep) s).
  assert (Hprep : Debugged (Text t) ∉ evs_of prep).
  { eapply not_text_absent; [apply (prepare_quiet env options) | exact Ht]. }
  assert (Hd : Debugged (Text t) <> Debugged (Text "Start Ghost")).
  { intros [= ->]. cbn in Ht. intuition discriminate. }
  rewrite elem_of_cons, elem_of_app.
  destruct (res_of prep) as [[]|e|c].
  - rewrite elem_of_app.
    assert (Hfin : Debugged (Text t) ∉
              match res_of path with
              | Done _ => evs_of (finish env (now env h)
                                    ((h1 ++ evs_of prep) ++ evs_of path) (st_of path))
              | _ => []
              end).
    { destruct (res_of path); try apply not_elem_of_nil.
      eapply not_text_absent; [apply (finish_quiet env) | exact Ht]. }
    tauto.
  - split; [|intros [? _]; discriminate].
    intros [?|[?|Hn]]; [contradiction | contradiction |].
    apply elem_of_nil in Hn. contradiction.
  - split; [|intros [? _]; discriminate].
    intros [?|[?|Hn]]; [contradiction | contradiction |].
    apply elem_of_nil in Hn. contradiction.
Qed.

Example startGhost_readonly_tmp :
  res_of (startGhost env_readonly_tmp no_options [] initial_state) = Thrown "EACCES"
  /\ kind <$> evs_of (startGhost env_readonly_tmp no_options [] initial_state)
     = [ KDebugged (Text "Start Ghost");
         KCalled (ConfigSet "paths:contentPath"
                            "/tmp/5f2f4b3e-0d0a-4c58-9d53-2f5a1c3a9b10/ghost-test");
         KCalled (EnsureDirSync "/tmp/5f2f4b3e-0d0a-4c58-9d53-2f5a1c3a9b10/ghost-test") ].
Proof. vm_compute. split; reflexivity. Qed.

(** C4, as stated, fails: when [prepareContentFolder] throws, [startGhost]
    rejects before it reaches either start path. *)
Lemma startGhost_may_enter_neither_path :
  ~ (forall env given h s,
       let evs := evs_of (startGhost env given h s) in
       let restart :=
         running (ghostServer s) && negb (forceStart (merge_defaults env given)) in
       (entered_restart evs <-> restart = true)
       /\ (entered_fresh evs <-> restart = false)).
Proof.
  intros H.
  destruct (H env_readonly_tmp no_options [] initial_state) as [_ [_ Hf]].
  destruct (Hf eq_refl) as [Hin|Hin];
    (eapply (not_text_absent fresh_texts); [ | | exact Hin]);
    [vm_compute; reflexivity | cbn; tauto | vm_compute; reflexivity | cbn; tauto].
Qed.

(** C4 (amended): a call of [startGhost] in which [prepareContentFolder]
    returns normally enters [restartModeGhostStart] exactly when a
    ghostServer with an httpServer exists and [options.forceStart] is
    false, and [freshModeGhostStart] otherwise; no call enters both, and a
    call in which [prepareContentFolder] throws enters neither. *)
Theorem startGhost_paths env given h s :
  let options := merge_defaults env given in
  let evs := evs_of (startGhost env given h s) in
  let prepared :=
    res_of (prepareContentFolder env options
              (h ++ [Debugged (Text "Start Ghost")]) s) = Done tt in
  let restart := running (ghostServer s) && negb (forceStart options) in
  (entered_restart evs <-> prepared /\ restart = true)
  /\ (entered_fresh evs <-> prepared /\ restart = false)
  /\ ~ (entered_restart evs /\ entered_fresh evs).
Proof.
  intros options evs prepared restart.
  set (h1 := h ++ [Debugged (Text "Start Ghost")]).
  set (prep := prepareContentFolder env options h1 s).
  destruct (path_marks env options s (h1 ++ evs_of prep) s) as [Hr Hf].
  fold restart in Hr, Hf.
  assert (R : entered_restart evs <-> prepared /\ restart = true).
  { unfold entered_restart, evs. rewrite mark_in_events by (cbn; tauto).
    fold options h1 prep. unfold entered_restart in Hr. rewrite Hr. reflexivity. }
  assert (F : entered_fresh evs <-> prepared /\ restart = false).
  { unfold entered_fresh, evs. rewrite !mark_in_events by (cbn; tauto).
    fold options h1 prep. unfold entered_fresh in Hf. rewrite <- Hf. tauto. }
  split; [exact R|]. split; [exact F|].
  rewrite R, F. intros [[_ Ht] [_ Hfalse]]. congruence.
Qed.

Lemma startGhost_paths_witness :
  entered_restart (evs_of (startGhost env_all_ok no_options [] running_state))
  /\ entered_fresh (evs_of (startGhost env_all_ok no_options [] initial_state)).
Proof.
  split.
  - apply (proj2 (proj1 (startGhost_paths env_all_ok no_options [] running_state))).
    split; reflexivity.
  - apply (proj2 (proj1 (proj2
             (startGhost_paths env_all_ok no_options [] initial_state)))).
    split; reflexivity.
Defined.

(** ** Further properties of the e2e utilities *)

Ltac finish_case :=
  repeat split; try (eexists; reflexivity); try discriminate; try reflexivity.

Ltac unfold_monad env :=
  unfold await_, call_, await, call, debug, emit, when, get, modify, bind, ret,
    res_of, evs_of, st_of.





Lemma stateless_await env op : stateless (await env op).
Proof. intros h s. reflexivity. Qed.

Lemma stateless_await_ env op : stateless (await_ env op).
Proof. apply stateless_bind; [apply stateless_await | intros _; apply stateless_ret]. Qed.

Lemma stateless_debug m : stateless (debug m).
Proof. intros h s. reflexivity. Qed.

Lemma restart_stateless env options : stateless (restartModeGhostStart env options).
Proof.
  unfold restartModeGhostStart. cbv zeta.
  repeat first [ apply stateless_call_
               | apply stateless_await_
               | apply stateless_debug
               | apply stateless_when
               | apply stateless_bind; [|intros ?] ].
Qed.

(** X13: the restart path never touches the module state: the server held
    before is the server held after, and neither the exposed fixtures nor
    the accumulated start time change. *)
Theorem restart_keeps_state env options h s :
  st_of (restartModeGhostStart env options h s) = s.
Proof. apply restart_stateless. Qed.

Lemma fresh_run_checked env options h s :
  let run := freshModeGhostStart env options h s in
  let ks := kind <$> evs_of run in
  ks `prefix_of` fresh_runbook options (running (ghostServer s))
  /\ (res_of run = Done tt -> ks = fresh_runbook options (running (ghostServer s)))
  /\ sequential (evs_of run) = true
  /\ stops_at_failure (evs_of run) = true
  /\ existingData (st_of run) = existingData s
  /\ totalStartTime (st_of run) = totalStartTime s
  /\ ghostServer (st_of run) = default (ghostServer s) (booted (evs_of run))
  /\ (res_of run = Done tt -> is_Some (booted (evs_of run))).
Proof.
  destruct options as [b f rf ext fs ct cs c sd]. destruct s as [gs ed t].
  unfold freshModeGhostStart, stopGhost, bootGhost, fresh_runbook, stop_runbook, booted.
  cbn [forceStart frontend backend ghostServer existingData totalStartTime].
  unfold_monad env.
  destruct fs; cbn.
  all: crank env; try solve [finish_case].
  all: destruct (running gs); cbn; crank env; try solve [finish_case].
  all: destruct f; cbn; crank env; try solve [finish_case].
  all: destruct b; solve [finish_case].
Qed.





(** X15: the fresh-start path replaces the held server by what [boot]
    resolved with, and only then: when the path fails before [boot] has
    resolved the server held before is still held.  The exposed fixtures
    and the accumulated start time are not touched. *)
Theorem fresh_replaces_server_at_boot env options h s :
  let run := freshModeGhostStart env options h s in
  ghostServer (st_of run) = default (ghostServer s) (booted (evs_of run))
  /\ existingData (st_of run) = existingData s
  /\ totalStartTime (st_of run) = totalStartTime s.
Proof.
  intros run.
  destruct (fresh_run_checked env options h s) as (_ & _ & _ & _ & He & Ht & Hg & _).
  repeat split; assumption.
Qed.

Lemma exposeFixtures_checked env h s :
  let run := exposeFixtures env h s in
  let evs := evs_of run in
  take 4 evs = [ Started (FindAll Role (Columns ["id"]));
                 Started (FindAll User (Columns ["id"; "email"]));
                 Started (FindAll Tag (Columns ["id"]));
                 Started (FindAll ApiKey (WithRelated "integration")) ]
  /\ st_of run = set_existingData (fixture_data evs) s
  /\ ((res_of run = Done tt
       /\ forallb (fun ev => negb (failed ev)) evs = true
       /\ fst <$> fixture_data evs = ["roles"; "users"; "tags"; "apiKeys"]
       /\ exists v1 v2 v3 v4,
            fixtureAnswers env h = [Ok v1; Ok v2; Ok v3; Ok v4]
            /\ serialised evs
               = [("roles", v1); ("users", v2); ("tags", v3); ("apiKeys", v4)])
      \/ (res_of run = Exited 1
          /\ exists e evs0 ev,
               evs = evs0 ++ [ev; ConsoleError "Unable to expose fixtures" e; ProcessExit 1]
               /\ failure_of ev = Some e
               /\ forallb (fun ev => negb (failed ev)) evs0 = true)).
Proof.
  cbv zeta. rewrite exposeFixtures_unfold. cbv zeta.
  match goal with
  | |- context [expose_results env [(_, ?p1); (_, ?p2); (_, ?p3); (_, ?p4)] ?hh _] =>
      pose proof (expose_results_spec env p1 p2 p3 p4 hh s) as Hspec
  end.
  cbv zeta in Hspec.
  set (x := expose_results _ _ _ _) in *. clearbody x.
  destruct Hspec as (Hst & Hres & _). destruct x as [[r evs] st].
  unfold res_of, evs_of, st_of in *. cbn [fst snd] in *. subst st.
  split; [reflexivity|]. split; [reflexivity|].
  destruct Hres as [(Hd & Hok & Hk & v1 & v2 & v3 & v4 & Hans & Hser)
                   |(Hx & e & evs0 & ev & -> & He & Hok)].
  - left. split; [exact Hd|]. split; [exact Hok|]. split; [exact Hk|].
    exists v1, v2, v3, v4. split; [exact Hans | exact Hser].
  - right. split; [exact Hx|].
    exists e, (Started (FindAll Role (Columns ["id"]))
               :: Started (FindAll User (Columns ["id"; "email"]))
               :: Started (FindAll Tag (Columns ["id"]))
               :: Started (FindAll ApiKey (WithRelated "integration")) :: evs0), ev.
    split; [reflexivity|]. split; [exact He | exact Hok].
Qed.

(** X16: every run of [exposeFixtures] ends in one of two ways, and never
    by throwing to its caller.  It returns: then no query was rejected and
    no [toJSON] threw, and [toJSON] was called once per key, in the order
    roles, users, tags, apiKeys, each time on the value the query of that
    key resolved with, whatever the order in which the queries settled.
    Or the process exits with code 1 right after
    [console.error('Unable to expose fixtures', e)], where [e] is the
    failure that ended the wait: a rejected query or a [toJSON] that
    threw, with no failure before it in this run. *)
Theorem exposeFixtures_outcome env h s :
  let run := exposeFixtures env h s in
  let evs := evs_of run in
  (res_of run = Done tt
   /\ forallb (fun ev => negb (failed ev)) evs = true
   /\ exists v1 v2 v3 v4,
        fixtureAnswers env h = [Ok v1; Ok v2; Ok v3; Ok v4]
        /\ serialised evs
           = [("roles", v1); ("users", v2); ("tags", v3); ("apiKeys", v4)])
  \/ (res_of run = Exited 1
      /\ exists e evs0 ev,
           evs = evs0 ++ [ev; ConsoleError "Unable to expose fixtures" e; ProcessExit 1]
           /\ failure_of ev = Some e
           /\ forallb (fun ev => negb (failed ev)) evs0 = true).
Proof.
  intros run evs.
  destruct (exposeFixtures_checked env h s) as (_ & _ & [(Hd & Hok & _ & Hv)|Hex]).
  - left. split; [exact Hd|]. split; [exact Hok | exact Hv].
  - right. exact Hex.
Qed.

(** X17: after [exposeFixtures], [getExistingData] returns exactly the
    fixtures serialised in that run, in order: what was exposed before is
    discarded even when the run fails, and after a run that returned the
    keys are roles, users, tags and apiKeys.  The held server and the
    accumulated start time are not touched. *)
Theorem exposeFixtures_replaces_data env h s h' :
  let run := exposeFixtures env h s in
  getExistingData h' (st_of run) = (Done (fixture_data (evs_of run)), [], st_of run)
  /\ (res_of run = Done tt ->
      fst <$> fixture_data (evs_of run) = ["roles"; "users"; "tags"; "apiKeys"])
  /\ ghostServer (st_of run) = ghostServer s
  /\ totalStartTime (st_of run) = totalStartTime s.
Proof.
  intros run.
  destruct (exposeFixtures_checked env h s) as (_ & Hst & Hres).
  fold run in Hst, Hres. rewrite Hst. repeat split.
  destruct Hres as [(_ & _ & Hk & _)|(Hex & _)]; [intros _; exact Hk|].
  intros Hd. rewrite Hd in Hex. discriminate.
Qed.

Lemma exposeFixtures_replaces_data_witness :
  fst <$> fixture_data (evs_of (exposeFixtures env_all_ok [] running_state))
  = ["roles"; "users"; "tags"; "apiKeys"].
Proof.
  apply (proj1 (proj2 (exposeFixtures_replaces_data env_all_ok [] running_state []))).
  reflexivity.
Defined.

Lemma finish_run env startTime h s :
  let e := exposeFixtures env h s in
  let x := finish env startTime h s in
  let t := (now env (h ++ evs_of e) - startTime)%Z in
  match res_of e with
  | Done _ =>
      res_of x = Done (ghostServer (st_of e))
      /\ evs_of x = evs_of e ++ [ Debugged (StartedIn t);
                                  Debugged (AccumulatedIs (totalStartTime (st_of e) + t)) ]
      /\ st_of x = set_totalStartTime (totalStartTime (st_of e) + t)%Z (st_of e)
  | Thrown err => res_of x = Thrown err /\ evs_of x = evs_of e /\ st_of x = st_of e
  | Exited c => res_of x = Exited c /\ evs_of x = evs_of e /\ st_of x = st_of e
  end.
Proof.
  cbv zeta. unfold finish. rewrite bind_unfold.
  generalize (exposeFixtures env h s). intros [[[[]|err|c] evs] st];
    cbn [res_of evs_of st_of fst snd]; [|repeat split..].
  unfold bind, Date_now, modify, debug, emit, get. cbn.
  rewrite ?app_nil_r. repeat split.
Qed.

Lemma startGhost_run env given h s :
  let options := merge_defaults env given in
  let h1 := h ++ [Debugged (Text "Start Ghost")] in
  let prep := prepareContentFolder env options h1 s in
  let path := start_path env options s (h1 ++ evs_of prep) s in
  let fin := finish env (now env h) ((h1 ++ evs_of prep) ++ evs_of path) (st_of path) in
  res_of (startGhost env given h s)
  = match res_of prep with
    | Done _ => match res_of path with
                | Done _ => res_of fin
                | Thrown e => Thrown e
                | Exited c => Exited c
                end
    | Thrown e => Thrown e
    | Exited c => Exited c
    end
  /\ st_of (startGhost env given h s)
     = match res_of prep with
       | Done _ => match res_of path with
                   | Done _ => st_of fin
                   | _ => st_of path
                   end
       | _ => s
       end.
Proof.
  intros options h1 prep path fin.
  change (startGhost env given)
    with (bind (Date_now env) (fun startTime =>
            bind (debug (Text "Start Ghost")) (fun _ =>
              bind (prepareContentFolder env options) (fun _ =>
                bind (get ghostServer) (fun server =>
                  bind (if running server && negb (forceStart options)
                        then restartModeGhostStart env options
                        else freshModeGhostStart env options)
                       (fun _ => finish env startTime)))))).
  rewrite (bind_silent _ _ (now env h) h s s) by reflexivity.
  rewrite bind_unfold.
  change (res_of (debug (Text "Start Ghost") h s)) with (@Done unit tt).
  change (evs_of (debug (Text "Start Ghost") h s)) with [Debugged (Text "Start Ghost")].
  change (st_of (debug (Text "Start Ghost") h s)) with s.
  fold h1. cbv beta iota zeta.
  change (res_of (?r, ?e, ?st)) with r. change (st_of (?r, ?e, ?st)) with st.
  rewrite bind_unfold. fold prep.
  pose proof (prepare_stateless env options h1 s) as Hst. fold prep in Hst.
  destruct (res_of prep) as [[]|e|c]; [|split; [reflexivity|exact Hst]..].
  cbv beta iota zeta.
  change (res_of (?r, ?e, ?st)) with r. change (st_of (?r, ?e, ?st)) with st.
  rewrite Hst.
  rewrite (bind_silent _ _ (ghostServer s) _ s s) by reflexivity.
  rewrite bind_unfold. fold (start_path env options s). fold path.
  destruct (res_of path) as [[]|e|c]; split; reflexivity.
Qed.

Lemma booted_in evs v :
  booted evs = Some v -> exists b f, Settled (Boot b f) (Ok v) ∈ evs.
Proof.
  unfold booted. intros H. apply last_Some in H as [l' Hl].
  assert (Hin : v ∈ omap (fun ev => match ev with
                                    | Settled (Boot _ _) (Ok v) => Some v
                                    | _ => None
                                    end) evs).
  { rewrite Hl. apply elem_of_app. right. apply list_elem_of_here. }
  apply list_elem_of_omap in Hin as (ev & Hev & Hm).
  destruct ev as [| |[] [|]| | |]; try discriminate.
  injection Hm as ->. eauto.
Qed.

Lemma path_state env options s h' :
  let path := start_path env options s h' s in
  let restart := running (ghostServer s) && negb (forceStart options) in
  existingData (st_of path) = existingData s
  /\ totalStartTime (st_of path) = totalStartTime s
  /\ (restart = true -> st_of path = s)
  /\ (restart = false -> res_of path = Done tt ->
      exists b f, Settled (Boot b f) (Ok (ghostServer (st_of path))) ∈ evs_of path).
Proof.
  unfold start_path.
  destruct (running (ghostServer s) && negb (forceStart options)); cbv zeta.
  - rewrite (restart_stateless env options h' s). repeat split; discriminate.
  - destruct (fresh_run_checked env options h' s)
      as (_ & _ & _ & _ & He & Ht & Hg & Hb).
    repeat split; try assumption; try discriminate.
    intros _ Hd. destruct (Hb Hd) as [v Hv].
    rewrite Hg, Hv. cbn. apply booted_in, Hv.
Qed.

(** X18: when [startGhost] returns, it returns the server the module holds
    at that moment.  On the restart path that is the very server that was
    held before the call; on the fresh path it is what [boot] resolved
    with in this call. *)
Theorem startGhost_returns_held_server env given h s v :
  res_of (startGhost env given h s) = Done v ->
  let restart :=
    running (ghostServer s) && negb (forceStart (merge_defaults env given)) in
  v = ghostServer (st_of (startGhost env given h s))
  /\ (restart = true -> v = ghostServer s)
  /\ (restart = false ->
      exists b f, Settled (Boot b f) (Ok v) ∈ evs_of (startGhost env given h s)).
Proof.
  intros Hres restart.
  destruct (startGhost_run env given h s) as [Hr Hs].
  rewrite (startGhost_events env given h s).
  rewrite Hr in Hres. rewrite Hs. clear Hr Hs.
  set (options := merge_defaults env given) in *.
  set (h1 := h ++ [Debugged (Text "Start Ghost")]) in *.
  set (prep := prepareContentFolder env options h1 s) in *.
  destruct (path_state env options s (h1 ++ evs_of prep)) as (_ & _ & Hre & Hfr).
  fold restart in Hre, Hfr.
  set (path := start_path env options s (h1 ++ evs_of prep) s) in *.
  destruct (res_of prep) as [[]|e|c]; try discriminate.
  destruct (res_of path) as [[]|e|c] eqn:Hp; try discriminate.
  pose proof (finish_run env (now env h) ((h1 ++ evs_of prep) ++ evs_of path)
                (st_of path)) as Hfin.
  destruct (exposeFixtures_checked env ((h1 ++ evs_of prep) ++ evs_of path) (st_of path))
    as (_ & Hst & _).
  cbv zeta in Hfin, Hst.
  destruct (res_of (exposeFixtures env ((h1 ++ evs_of prep) ++ evs_of path) (st_of path)))
    as [[]|e|c]; destruct Hfin as (Hf1 & _ & Hf3);
    rewrite Hf1 in Hres; try discriminate.
  injection Hres as <-. rewrite Hf3, Hst. cbn [ghostServer set_totalStartTime set_existingData].
  split; [reflexivity|]. split.
  - intros Ht. rewrite (Hre Ht). reflexivity.
  - intros Hf. destruct (Hfr Hf eq_refl) as (b & f & Hin). exists b, f.
    apply list_elem_of_further, elem_of_app. right. apply elem_of_app. left. exact Hin.
Qed.

Lemma startGhost_returns_held_server_witness :
  VServer {| httpServer := true |}
  = ghostServer (st_of (startGhost env_all_ok no_options [] running_state)).
Proof.
  refine (proj1 (startGhost_returns_held_server env_all_ok no_options [] running_state
                   (VServer {| httpServer := true |}) _)).
  reflexivity.
Defined.

(** X19: when [startGhost] throws, the fixtures exposed by an earlier call
    and the accumulated start time are as they were; on the restart path
    the whole module state is. *)
Theorem startGhost_failure_keeps_data env given h s e :
  res_of (startGhost env given h s) = Thrown e ->
  let st := st_of (startGhost env given h s) in
  existingData st = existingData s
  /\ totalStartTime st = totalStartTime s
  /\ (running (ghostServer s) && negb (forceStart (merge_defaults env given)) = true ->
      st = s).
Proof.
  intros Hres. cbv zeta.
  destruct (startGhost_run env given h s) as [Hr Hs].
  rewrite Hr in Hres. rewrite Hs. clear Hr Hs.
  set (options := merge_defaults env given) in *.
  set (h1 := h ++ [Debugged (Text "Start Ghost")]) in *.
  set (prep := prepareContentFolder env options h1 s) in *.
  destruct (path_state env options s (h1 ++ evs_of prep)) as (He & Ht & Hre & _).
  set (path := start_path env options s (h1 ++ evs_of prep) s) in *.
  destruct (res_of prep) as [[]|e'|c]; try discriminate; [|repeat split].
  destruct (res_of path) as [[]|e'|c]; try discriminate; [|repeat split; assumption].
  exfalso.
  pose proof (finish_run env (now env h) ((h1 ++ evs_of prep) ++ evs_of path)
                (st_of path)) as Hfin.
  pose proof (exposeFixtures_no_throw env ((h1 ++ evs_of prep) ++ evs_of path)
                (st_of path)) as Hnt.
  cbv zeta in Hfin.
  destruct (res_of (exposeFixtures env ((h1 ++ evs_of prep) ++ evs_of path) (st_of path)))
    as [[]|e'|c]; destruct Hfin as (Hf1 & _ & _); rewrite Hf1 in Hres;
    try discriminate.
  apply (Hnt e'). reflexivity.
Qed.

Lemma startGhost_failure_keeps_data_witness :
  existingData (st_of (startGhost env_db_down no_options [] initial_state)) = [].
Proof.
  refine (proj1 (startGhost_failure_keeps_data env_db_down no_options [] initial_state
                   "ECONNREFUSED" _)).
  reflexivity.
Defined.

(** X20: a call of [startGhost] that returns adds the time it took to the
    accumulated start time and reports both with its last two [debug]
    calls.  The time it took is what [Date.now()] gives after fixture
    exposure, just before those two calls, minus what it gave when the
    call began.  A call that does not return leaves the accumulated start
    time as it was. *)
Theorem startGhost_accounts_time env given h s :
  let run := startGhost env given h s in
  (forall v, res_of run = Done v ->
     exists evs0,
       let t := (now env (h ++ evs0) - now env h)%Z in
       evs_of run
       = evs0 ++ [Debugged (StartedIn t);
                  Debugged (AccumulatedIs (totalStartTime s + t))]
       /\ totalStartTime (st_of run) = (totalStartTime s + t)%Z)
  /\ ((forall v, res_of run <> Done v) ->
      totalStartTime (st_of run) = totalStartTime s).
Proof.
  cbv zeta.
  destruct (startGhost_run env given h s) as [Hr Hs].
  rewrite (startGhost_events env given h s). rewrite Hr, Hs. clear Hr Hs.
  set (options := merge_defaults env given) in *.
  set (h1 := h ++ [Debugged (Text "Start Ghost")]) in *.
  set (prep := prepareContentFolder env options h1 s) in *.
  destruct (path_state env options s (h1 ++ evs_of prep)) as (_ & Ht & _ & _).
  set (path := start_path env options s (h1 ++ evs_of prep) s) in *.
  destruct (res_of prep) as [[]|e|c];
    [|split; [discriminate | reflexivity]..].
  destruct (res_of path) as [[]|e|c];
    [|split; [discriminate | intros _; exact Ht]..].
  pose proof (finish_run env (now env h) ((h1 ++ evs_of prep) ++ evs_of path)
                (st_of path)) as Hfin.
  destruct (exposeFixtures_checked env ((h1 ++ evs_of prep) ++ evs_of path) (st_of path))
    as (_ & Hst & _).
  cbv zeta in Hfin, Hst.
  set (E := exposeFixtures env ((h1 ++ evs_of prep) ++ evs_of path) (st_of path)) in *.
  destruct (res_of E) as [[]|e|c]; destruct Hfin as (Hf1 & Hf2 & Hf3).
  - rewrite Hst in Hf2, Hf3.
    cbn [totalStartTime set_totalStartTime set_existingData] in Hf2, Hf3.
    rewrite Ht in Hf2, Hf3. rewrite Hf1, Hf2, Hf3.
    split; [|intros Hn; exfalso; eapply Hn; reflexivity].
    intros v _.
    exists (Debugged (Text "Start Ghost") :: evs_of prep ++ evs_of path ++ evs_of E).
    assert (Hh : h ++ Debugged (Text "Start Ghost") :: evs_of prep ++ evs_of path ++ evs_of E
                 = ((h1 ++ evs_of prep) ++ evs_of path) ++ evs_of E).
    { unfold h1. rewrite <- !app_assoc. reflexivity. }
    rewrite Hh. split; [|reflexivity].
    cbn [app]. f_equal. rewrite <- !app_assoc. reflexivity.
  - rewrite Hf1, Hf3, Hst. split; [discriminate|]. intros _. exact Ht.
  - rewrite Hf1, Hf3, Hst. split; [discriminate|]. intros _. exact Ht.
Qed.

Lemma startGhost_accounts_time_witness :
  exists evs0,
    let t := (now env_all_ok ([] ++ evs0) - now env_all_ok [])%Z in
    evs_of (startGhost env_all_ok no_options [] running_state)
    = evs0 ++ [Debugged (StartedIn t); Debugged (AccumulatedIs (0 + t))]
    /\ totalStartTime (st_of (startGhost env_all_ok no_options [] running_state))
       = (0 + t)%Z.
Proof.
  apply (proj1 (startGhost_accounts_time env_all_ok no_options [] running_state)
               (VServer {| httpServer := true |})).
  reflexivity.
Defined.

Ltac avoid_steps env :=
  unfold call_, await_, debug, console_error;
  repeat first
    [ apply quiet_bind; [|intros ?]
    | apply quiet_when
    | apply (quiet_call env); intros ?; reflexivity
    | apply (quiet_await env); [reflexivity | intros ?; reflexivity]
    | apply quiet_emit; reflexivity
    | apply quiet_process_exit; reflexivity
    | apply quiet_silent; reflexivity ].

Lemma exposeFixtures_avoids env P :
  (forall m o, P (FindAll m o) = false) -> (forall k c, P (ToJSON k c) = false) ->
  quiet (avoids P) (exposeFixtures env).
Proof.
  intros HF HJ. unfold exposeFixtures.
  repeat (apply quiet_bind_start; [unfold avoids; cbn; rewrite HF; reflexivity | intros ?]).
  apply quiet_bind; [apply quiet_silent; reflexivity | intros _].
  apply quiet_catch.
  - apply quiet_bind.
    + apply quiet_promise_all. unfold avoids; cbn. rewrite !HF. reflexivity.
    + intros results. apply quiet_for_each. intros [key result].
      apply quiet_bind; [|intros ?; apply quiet_silent; reflexivity].
      apply quiet_call. intros ?. unfold avoids; cbn. rewrite HJ. reflexivity.
  - intros err. avoid_steps env.
Qed.

Lemma finish_avoids env startTime P :
  (forall m o, P (FindAll m o) = false) -> (forall k c, P (ToJSON k c) = false) ->
  quiet (avoids P) (finish env startTime).
Proof.
  intros HF HJ. unfold finish.
  apply quiet_bind; [apply exposeFixtures_avoids; assumption | intros _].
  avoid_steps env.
Qed.

Lemma prepare_avoids env options P :
  (forall k v, P (ConfigSet k v) = false) -> (forall d, P (EnsureDirSync d) = false) ->
  (forall a b, P (CopySync a b) = false) -> (forall a b, P (RedirectsSetupFile a b) = false) ->
  quiet (avoids P) (prepareContentFolder env options).
Proof.
  intros H1 H2 H3 H4. unfold prepareContentFolder, call_. cbv zeta.
  repeat first
    [ apply quiet_bind; [|intros ?]
    | apply quiet_when
    | apply quiet_silent; reflexivity
    | apply (quiet_call env); intros ?; unfold avoids; cbn [op_of];
      rewrite ?H1, ?H2, ?H3, ?H4; reflexivity ].
Qed.

Lemma restart_avoids_fresh_only env options :
  quiet (avoids fresh_only) (restartModeGhostStart env options).
Proof. unfold restartModeGhostStart. avoid_steps env. Qed.

Lemma fresh_avoids_restart_only env options :
  quiet (avoids restart_only) (freshModeGhostStart env options).
Proof.
  unfold freshModeGhostStart, stopGhost, bootGhost.
  apply quiet_bind; [destruct (forceStart options); avoid_steps env | intros _].
  avoid_steps env.
Qed.

Lemma startGhost_quiet env given h s q :
  let options := merge_defaults env given in
  q (Debugged (Text "Start Ghost")) = true ->
  quiet q (prepareContentFolder env options) ->
  quiet q (start_path env options s) ->
  (forall t, quiet q (finish env t)) ->
  forallb q (evs_of (startGhost env given h s)) = true.
Proof.
  intros options Hd Hp Hpath Hfin. rewrite startGhost_events. fold options.
  cbn [forallb]. rewrite Hd, forallb_app, Hp. cbn [andb].
  destruct (res_of (prepareContentFolder _ _ _ _)); try reflexivity.
  rewrite forallb_app, Hpath. cbn [andb].
  destruct (res_of (start_path _ _ _ _ _)); try reflexivity. apply Hfin.
Qed.

(** X21: the two start paths do not mix.  A call of [startGhost] that takes
    the restart path never resets the database, stops or boots a server,
    shuts the settings service down or clears the require cache; a call
    that takes the fresh path never calls the teardown, the fixture-only
    init or the service re-initialisations of the restart path. *)
Theorem start_paths_do_not_mix env given h s i ev op :
  evs_of (startGhost env given h s) !! i = Some ev ->
  op_of ev = Some op ->
  let restart :=
    running (ghostServer s) && negb (forceStart (merge_defaults env given)) in
  (restart = true -> fresh_only op = false)
  /\ (restart = false -> restart_only op = false).
Proof.
  intros Hi Hop restart. split; intros Hmode.
  - assert (H : forallb (avoids fresh_only) (evs_of (startGhost env given h s)) = true).
    { apply startGhost_quiet; [reflexivity | | | ].
      - apply prepare_avoids; reflexivity.
      - unfold start_path. fold restart. rewrite Hmode. apply restart_avoids_fresh_only.
      - intros t. apply finish_avoids; reflexivity. }
    pose proof (forallb_lookup _ _ _ _ H Hi) as Hb. unfold avoids in Hb.
    rewrite Hop in Hb. apply negb_true_iff in Hb. exact Hb.
  - assert (H : forallb (avoids restart_only) (evs_of (startGhost env given h s)) = true).
    { apply startGhost_quiet; [reflexivity | | | ].
      - apply prepare_avoids; reflexivity.
      - unfold start_path. fold restart. rewrite Hmode. apply fresh_avoids_restart_only.
      - intros t. apply finish_avoids; reflexivity. }
    pose proof (forallb_lookup _ _ _ _ H Hi) as Hb. unfold avoids in Hb.
    rewrite Hop in Hb. apply negb_true_iff in Hb. exact Hb.
Qed.

Lemma start_paths_do_not_mix_witness :
  fresh_only DbTeardown = false.
Proof.
  refine (proj1 (start_paths_do_not_mix env_all_ok no_options [] running_state 13
                   (Started DbTeardown) DbTeardown _ _) _); reflexivity.
Defined.

End E2EFacts.
